(** * make_omim_disease_database.py: a shallow embedding and its properties

    The script joins two tabular reference files: a mapping table
    (MedGen_HPO_OMIM_Mapping) and a definition table (MGDEF).  This file
    embeds the functions of the script and proves properties of them.

    Conventions of the embedding.
    - A Python [str] is a [string]; one [ascii] stands for one code point,
      so the model covers the code points 0..255 (Latin-1).  The [str]
      methods used by the script ([strip], [lstrip], [lower], [split],
      [join], [startswith], [in]) are given on that range.
    - A [dict] with string keys is a [gmap string _]; the [set] of seen
      identifiers is a [gset string].
    - A pandas frame is a record of its column labels and its rows; a cell
      read by [read_csv] is a string or the missing value NaN.
    - [pd.read_csv] is library code: the two readers take it as a section
      variable.  Exceptions are values of [error]. *)

From stdpp Require Import gmap strings list fin_maps.
From Stdlib Require Import Ascii String.

Local Open Scope string_scope.

(** ** Python string methods *)

Module Py.

(** [str.isspace] of one code point below 256: U+0009..U+000D,
    U+001C..U+0020, U+0085 and U+00A0. *)
Definition isspace (c : ascii) : bool :=
  let n := nat_of_ascii c in
  (((9 <=? n) && (n <=? 13)) || ((28 <=? n) && (n <=? 32))
   || (n =? 133) || (n =? 160))%nat.

(** [str.lower] of one code point below 256: A..Z, and the Latin-1 capitals
    U+00C0..U+00DE except the multiplication sign U+00D7. *)
Definition lower_char (c : ascii) : ascii :=
  let n := nat_of_ascii c in
  if (((65 <=? n) && (n <=? 90))
      || ((192 <=? n) && (n <=? 222) && negb (n =? 215)))%nat
  then ascii_of_nat (n + 32) else c.

Fixpoint lower (s : string) : string :=
  match s with
  | EmptyString => EmptyString
  | String c s' => String (lower_char c) (lower s')
  end.

(** [c in chars] for a one-character [c]. *)
Fixpoint has_char (c : ascii) (chars : string) : bool :=
  match chars with
  | EmptyString => false
  | String d chars' => Ascii.eqb c d || has_char c chars'
  end.

(** [sub in s]: substring test. *)
Fixpoint contains (sub s : string) : bool :=
  String.prefix sub s ||
  match s with
  | EmptyString => false
  | String _ s' => contains sub s'
  end.

Definition startswith (s pre : string) : bool := String.prefix pre s.

(** Drop the leading characters that satisfy [p]. *)
Fixpoint lstrip_by (p : ascii -> bool) (s : string) : string :=
  match s with
  | EmptyString => EmptyString
  | String c s' => if p c then lstrip_by p s' else s
  end.

(** Drop the trailing characters that satisfy [p]. *)
Fixpoint rstrip_by (p : ascii -> bool) (s : string) : string :=
  match s with
  | EmptyString => EmptyString
  | String c s' =>
      match rstrip_by p s' with
      | EmptyString => if p c then EmptyString else String c EmptyString
      | t => String c t
      end
  end.

(** [s.strip()] *)
Definition strip (s : string) : string :=
  rstrip_by isspace (lstrip_by isspace s).

(** [s.lstrip(chars)] *)
Definition lstrip_chars (chars s : string) : string :=
  lstrip_by (fun c => has_char c chars) s.

(** [s.split(sep)] for a non-empty [sep]: leftmost, non-overlapping
    occurrences.  [skip] counts the characters of a matched separator
    that are still to be passed over.  The first element of the result is
    the field under construction. *)
Fixpoint split_go (sep : string) (skip : nat) (s : string) : list string :=
  match s with
  | EmptyString => [EmptyString]
  | String c s' =>
      match skip with
      | S k => split_go sep k s'
      | O =>
          if String.prefix sep s
          then EmptyString :: split_go sep (String.length sep - 1) s'
          else match split_go sep 0 s' with
               | f :: fs => String c f :: fs
               | [] => [String c EmptyString]
               end
      end
  end.

Definition split (s sep : string) : list string := split_go sep 0 s.

(** [sep.join(l)] *)
Fixpoint join (sep : string) (l : list string) : string :=
  match l with
  | [] => EmptyString
  | [x] => x
  | x :: l' => x ++ sep ++ join sep l'
  end.

(** Truth value of a [str]: false exactly for the empty string. *)
Definition truthy (s : string) : bool :=
  match s with EmptyString => false | _ => true end.

(** [d.get(k, default)] *)
Definition dict_get {V} (d : gmap string V) (k : string) (default : V) : V :=
  match d !! k with Some v => v | None => default end.

End Py.

(** ** Header delimiter inference *)

Definition TAB : string := String (ascii_of_nat 9) EmptyString.
Definition NL : string := String (ascii_of_nat 10) EmptyString.

(** [detect_delim_from_header]: prefer tab, then comma, then pipe. *)
Definition detect_delim_from_header (header_line : string) : string :=
  if Py.contains TAB header_line then TAB
  else if Py.contains "," header_line then ","
  else if Py.contains "|" header_line then "|"
  else TAB.

(** ** Exceptions and results *)

(** The exceptions the script raises, and the ones it lets through. *)
Inductive error : Type :=
| FileNotFound (path : string)        (* FileNotFoundError *)
| EmptyInput                          (* ValueError: file appears empty *)
| MissingColumns (found : list string)(* ValueError: must contain 'CUI' and 'DEF' *)
| ReadCsvError (msg : string).        (* an exception of pd.read_csv *)

Inductive result (A : Type) : Type :=
| Ok (a : A)
| Err (e : error).
Arguments Ok {A} a.
Arguments Err {A} e.

(** Sequencing: the first exception raised ends the computation. *)
#[global] Instance result_bind : MBind result := fun A B k r =>
  match r with
  | Ok a => k a
  | Err e => Err e
  end.

(** ** Frames *)

(** A cell as [read_csv] with [dtype=str] leaves it: a string, or NaN for a
    field the line did not have. *)
Inductive cell : Type :=
| Str (s : string)
| NaN.

#[global] Instance cell_eq_dec : EqDecision cell.
Proof. solve_decision. Defined.

#[global] Instance cell_countable : Countable cell :=
  inj_countable'
    (fun c => match c with Str s => Some s | NaN => None end)
    (fun o => match o with Some s => Str s | None => NaN end)
    (fun c => match c with Str _ => eq_refl | NaN => eq_refl end).

(** A data frame: the column labels and the rows, one cell per label. *)
Record frame (C : Type) : Type := Frame {
  columns : list string;
  rows : list (list C)
}.
Arguments Frame {C} columns rows.
Arguments columns {C} f.
Arguments rows {C} f.

(** The invariant pandas keeps for the frames of this script: every row has
    one cell per column, and the labels of a frame that has rows are
    distinct ([read_csv] renames the duplicates of a header and refuses
    duplicates in [names]). *)
Definition frame_wf {C} (df : frame C) : Prop :=
  (rows df <> [] -> NoDup (columns df))
  /\ Forall (fun r => List.length r = List.length (columns df)) (rows df).

(** What [pd.read_csv] does: a frame, or an exception with its message. *)
Inductive csv_result : Type :=
| CsvOk (df : frame cell)
| CsvRaise (msg : string).

Definition lift_csv (r : csv_result) : result (frame cell) :=
  match r with
  | CsvOk df => Ok df
  | CsvRaise msg => Err (ReadCsvError msg)
  end.

(** Position of a label among the columns. *)
Fixpoint col_index (label : string) (cols : list string) : option nat :=
  match cols with
  | [] => None
  | c :: cols' =>
      if String.eqb c label then Some 0 else S <$> col_index label cols'
  end.

(** [row[label]] for a row of a frame with columns [cols]. *)
Definition row_at {C} (dflt : C) (cols : list string) (row : list C)
    (label : string) : C :=
  match col_index label cols with
  | Some i => nth i row dflt
  | None => dflt
  end.

(** [str(x)] and [.astype(str)] on a cell: NaN prints as "nan". *)
Definition py_str (x : cell) : string :=
  match x with Str s => s | NaN => "nan" end.

(** [.fillna("")] on a cell. *)
Definition fillna_empty (x : cell) : cell :=
  match x with Str s => Str s | NaN => Str "" end.

(** [{c.lower(): c for c in columns}]: a later column overrides an earlier
    one with the same lowered name. *)
Definition lower_colmap (cols : list string) : gmap string string :=
  foldl (fun m c => <[Py.lower c := c]> m) ∅ cols.

(** Rewrite the cell at position [i] of a row. *)
Definition update_cell {C} (f : C -> C) (i : nat) (r : list C) : list C :=
  match r !! i with
  | Some x => <[i := f x]> r
  | None => r
  end.

(** [df[label] = f(df[label])]: rewrite one column cell by cell. *)
Definition update_col {C} (f : C -> C) (label : string) (df : frame C) : frame C :=
  match col_index label (columns df) with
  | Some i => Frame (columns df) (map (update_cell f i) (rows df))
  | None => df
  end.

(** [df[mask]] with the mask computed row by row. *)
Definition filter_rows {C} (keep : list C -> bool) (df : frame C) : frame C :=
  Frame (columns df) (List.filter keep (rows df)).

(** [drop_duplicates(subset=[label], keep="first")]: [seen] holds the keys
    of the rows kept so far. *)
Fixpoint drop_dups_go (key : list cell -> cell) (seen : gset cell)
    (rs : list (list cell)) : list (list cell) :=
  match rs with
  | [] => []
  | r :: rs' =>
      if bool_decide (key r ∈ seen) then drop_dups_go key seen rs'
      else r :: drop_dups_go key ({[key r]} ∪ seen) rs'
  end.

Definition drop_duplicates_first (label : string) (df : frame cell) : frame cell :=
  Frame (columns df)
    (drop_dups_go (fun r => row_at NaN (columns df) r label) ∅ (rows df)).

(** [pd.Series(values, index=keys).to_dict()]: built left to right, so a
    repeated key would keep its last value.  Both columns hold [Str] cells
    when the script calls it; [py_str] reads the string back. *)
Definition series_to_dict (keys vals : list cell) : gmap string string :=
  foldl (fun m kv => <[py_str kv.1 := py_str kv.2]> m) ∅ (zip keys vals).

(** [df[label].values] *)
Definition col_values {C} (dflt : C) (label : string) (df : frame C) : list C :=
  map (fun r => row_at dflt (columns df) r label) (rows df).

(** ** Locating the header *)

(** The [while] loop of both readers: the index of the first line that is
    not blank, or [len(lines)] when there is none. *)
Fixpoint header_index (lines : list string) : nat :=
  match lines with
  | [] => 0
  | l :: ls => if String.eqb (Py.strip l) "" then S (header_index ls) else 0
  end.

(** ** The definition table: [read_mgdef_map] after parsing *)

(** Lines 65-82 of the script: from the frame [read_csv] returned to the
    dict {CUI: DEF}. *)
Definition mgdef_map_of_frame (df : frame cell) : result (gmap string string) :=
  let cols_lower := lower_colmap (columns df) in
  match cols_lower !! "cui", cols_lower !! "def" with
  | Some col_cui, Some col_def =>
      let strip_cell := fun x => Str (Py.strip (py_str x)) in
      let df := update_col strip_cell col_cui df in
      let df := update_col strip_cell col_def df in
      let df := filter_rows
                  (fun r => negb (bool_decide (row_at NaN (columns df) r col_cui = Str ""))
                            && negb (bool_decide (row_at NaN (columns df) r col_def = Str "")))
                  df in
      let df := drop_duplicates_first col_cui df in
      Ok (series_to_dict (col_values NaN col_cui df) (col_values NaN col_def df))
  | _, _ => Err (MissingColumns (columns df))
  end.

(** ** The output records *)

Record entry : Type := Entry {
  _id : string;
  omim_id : string;
  omim_disease : string;
  medgen_concept_id : string;
  medgen_disease_info : string
}.

(** ** The join: [build_list_of_dicts] *)

Section Join.

Variable mapping_df : frame string.
Variable cui_def_map : gmap string string.

Definition colmap : gmap string string := lower_colmap (columns mapping_df).

(** The inner function [get(row, name)]. *)
Definition get (row : list string) (name : string) : string :=
  let key := Py.lower name in
  match colmap !! key with
  | Some label => row_at "" (columns mapping_df) row label
  | None => ""
  end.

(** [all((str(x).strip() == "") for x in row)] *)
Definition all_blank (row : list string) : bool :=
  forallb (fun x => String.eqb (Py.strip x) "") row.

(** The guard of the fallback: [not medgen_disease_info and hpo_cui]. *)
Definition fallback_taken (info hpo_cui : string) : bool :=
  negb (Py.truthy info) && Py.truthy hpo_cui.

(** Lines 178-181: the definition looked up for a row. *)
Definition lookup_info (omim_cui hpo_cui : string) : string :=
  let info := Py.dict_get cui_def_map omim_cui "NA" in
  if fallback_taken info hpo_cui
  then Py.dict_get cui_def_map hpo_cui "NA"
  else info.

(** Lines 183-189: the record built for a row that is kept. *)
Definition make_entry (row : list string) : entry :=
  let omim_cui := get row "OMIM_CUI" in
  let mim_number := get row "MIM_number" in
  let omim_name := get row "OMIM_name" in
  let hpo_cui := get row "HPO_CUI" in
  Entry mim_number mim_number omim_name omim_cui (lookup_info omim_cui hpo_cui).

(** One iteration of the [for] loop over the state [(ss, results)];
    every [continue] returns the state unchanged. *)
Definition loop_body (st : gset string * list entry) (row : list string)
    : gset string * list entry :=
  let '(ss, results) := st in
  if all_blank row then st
  else
    let omim_cui := get row "OMIM_CUI" in
    let mim_number := get row "MIM_number" in
    if negb (Py.truthy mim_number) || negb (Py.truthy omim_cui) then st
    else if bool_decide (omim_cui ∈ ss) then st
    else ({[omim_cui]} ∪ ss, (results ++ [make_entry row])%list).

(** The loop state after the rows [rs], from the initial state. *)
Definition run_loop (rs : list (list string)) : gset string * list entry :=
  foldl loop_body (∅, []) rs.

Definition build_list_of_dicts : list entry :=
  (run_loop (rows mapping_df)).2.

End Join.

(** ** The two readers *)

Section Readers.

(** The decompressed files: path to lines, as [read_text_gz_all] returns
    them.  A path outside the map does not exist. *)
Variable fs : gmap string (list string).

(** [pd.read_csv(StringIO(text), sep=sep, dtype=str,
    keep_default_na=False, engine="python")]; [names = None] is the call
    with [header=0], [names = Some l] the call with [header=None,
    names=l]. *)
Variable read_csv : string -> string -> option (list string) -> csv_result.

Definition read_mgdef_map (mgdef_path : string) : result (gmap string string) :=
  match fs !! mgdef_path with
  | None => Err (FileNotFound mgdef_path)
  | Some lines =>
      let idx := header_index lines in
      match lines !! idx with
      | None => Err EmptyInput
      | Some l =>
          let header_line := Py.strip l in
          let delim := detect_delim_from_header header_line in
          let data_text := Py.join NL (drop idx lines) in
          df ← lift_csv (read_csv data_text delim None);
          mgdef_map_of_frame df
      end
  end.

(** Lines 101-108: the header without its comment marker, the delimiter
    and the column names. *)
Definition header_clean_of (header_line : string) : string :=
  if Py.startswith header_line "#"
  then Py.strip (Py.lstrip_chars "#" header_line)
  else header_line.

Definition header_cols_of (header_line : string) : list string :=
  let header_clean := header_clean_of header_line in
  let delim := detect_delim_from_header header_clean in
  map Py.strip (Py.split header_clean delim).

Definition read_medgen_mapping (mapping_path : string) : result (frame string) :=
  match fs !! mapping_path with
  | None => Err (FileNotFound mapping_path)
  | Some lines =>
      let idx := header_index lines in
      match lines !! idx with
      | None => Err EmptyInput
      | Some l =>
          let header_line := Py.strip l in
          let header_clean := header_clean_of header_line in
          let delim := detect_delim_from_header header_clean in
          let header_cols := header_cols_of header_line in
          let data_lines := drop (S idx) lines in
          let data_text := Py.strip (Py.join NL data_lines) in
          if String.eqb data_text "" then Ok (Frame header_cols [])
          else
            df ← lift_csv (read_csv data_text delim (Some header_cols));
            Ok (Frame (columns df)
                  (map (map (fun x => Py.strip (py_str (fillna_empty x)))) (rows df)))
      end
  end.

(** [main] up to the join: both readers, then [build_list_of_dicts]. *)
Definition main_results (mgdef_path mapping_path : string) : result (list entry) :=
  cui_def_map ← read_mgdef_map mgdef_path;
  mapping_df ← read_medgen_mapping mapping_path;
  Ok (build_list_of_dicts mapping_df cui_def_map).

End Readers.

(** ** A reader for closed examples *)

(** A stand-in for [pd.read_csv] on text without quote characters, used to
    run the two readers on concrete files: blank lines are skipped, a line
    is split on [sep], a short row is padded with NaN and a long row is an
    exception. *)
Definition plain_row (sep : string) (n : nat) (line : string) : option (list cell) :=
  let fields := map Str (Py.split line sep) in
  if (List.length fields <=? n)%nat
  then Some (fields ++ replicate (n - List.length fields) NaN)%list
  else None.

Definition plain_frame (sep : string) (cols lines : list string) : csv_result :=
  match mapM (plain_row sep (List.length cols)) lines with
  | Some rs => CsvOk (Frame cols rs)
  | None => CsvRaise "too many fields"
  end.

Definition plain_read_csv (text sep : string) (names : option (list string))
    : csv_result :=
  let lines := List.filter (fun l => negb (String.eqb l "")) (Py.split text NL) in
  match names with
  | Some cols => plain_frame sep cols lines
  | None =>
      match lines with
      | [] => CsvRaise "no columns to parse"
      | h :: ls => plain_frame sep (Py.split h sep) ls
      end
  end.

(** ** Vocabulary of the statements *)

(** Case-insensitive match of a column label with a required name. *)
Definition ci_match (label name : string) : Prop :=
  Py.lower label = Py.lower name.

(** The character [c] occurs in the line [s]. *)
Definition occurs (c : ascii) (s : string) : Prop :=
  In c (list_ascii_of_string s).

(** The trimmed text of the cell of [row] under [label], as lines 74-75
    compute it. *)
Definition trimmed_at (df : frame cell) (label : string) (row : list cell) : string :=
  Py.strip (py_str (row_at NaN (columns df) row label)).

(** The (CUI, DEF) pairs, trimmed, of the rows that line 76 keeps, in file
    order. *)
Definition kept_pairs (df : frame cell) (col_cui col_def : string)
    : list (string * string) :=
  map (fun r => (trimmed_at df col_cui r, trimmed_at df col_def r))
    (List.filter
       (fun r => negb (String.eqb (trimmed_at df col_cui r) "")
                 && negb (String.eqb (trimmed_at df col_def r) ""))
       (rows df)).

(** The invariant of a definition table: keys and definitions are
    non-empty and trimmed. *)
Definition definition_table (m : gmap string string) : Prop :=
  forall k v, m !! k = Some v ->
    k <> "" /\ v <> "" /\ Py.strip k = k /\ Py.strip v = v.

(** A row of the mapping table passes the first three tests of the loop:
    not all cells blank, a MIM number, an OMIM CUI. *)
Definition qualifies (df : frame string) (row : list string) : Prop :=
  ~ Forall (fun x => Py.strip x = "") row
  /\ get df row "MIM_number" <> ""
  /\ get df row "OMIM_CUI" <> "".

(** Row [i] qualifies and no earlier qualifying row has its OMIM CUI. *)
Definition first_seen (df : frame string) (i : nat) : Prop :=
  exists row, rows df !! i = Some row
    /\ qualifies df row
    /\ forall j row', (j < i)%nat -> rows df !! j = Some row' ->
         qualifies df row' ->
         get df row' "OMIM_CUI" <> get df row "OMIM_CUI".

(** A list of row indices in file order. *)
Definition increasing (idxs : list nat) : Prop :=
  forall a b i j, idxs !! a = Some i -> idxs !! b = Some j ->
    (a < b)%nat -> (i < j)%nat.

(** The record the join builds from row [i]. *)
Definition entry_of_row (df : frame string) (m : gmap string string) (i : nat) : entry :=
  make_entry df m (nth i (rows df) []).

(** The invariant of the join loop for distinctness: the seen set holds
    the concept identifiers of the records, and these are distinct. *)
Definition distinct_inv (st : gset string * list entry) : Prop :=
  NoDup (medgen_concept_id <$> st.2)
  /\ forall e, e ∈ st.2 -> medgen_concept_id e ∈ st.1.

(** The state of the join loop after the first [n] rows: the seen set
    holds the OMIM CUIs of the qualifying rows among them, and the records
    are those of the first-seen rows, in file order. *)
Definition prefix_inv (df : frame string) (m : gmap string string) (n : nat)
    (st : gset string * list entry) : Prop :=
  (forall c, c ∈ st.1 <->
     exists j row', (j < n)%nat /\ rows df !! j = Some row'
       /\ qualifies df row' /\ get df row' "OMIM_CUI" = c)
  /\ exists idxs, st.2 = entry_of_row df m <$> idxs
       /\ increasing idxs
       /\ forall i, i ∈ idxs <-> (i < n)%nat /\ first_seen df i.

(** The pair a row contributes to the dict, for [key] and [val] reading
    the two columns of the row. *)
Definition pair_of (key val : list cell -> cell) (r : list cell)
    : string * string :=
  (py_str (key r), py_str (val r)).

(** The keys are strings, as they are after line 74. *)
Definition str_keys (key : list cell -> cell) (L : list (list cell)) : Prop :=
  Forall (fun r => key r = Str (py_str (key r))) L.

(** A line the readers skip while looking for the header. *)
Definition blank (l : string) : Prop := Py.strip l = "".

(** The fields of a record that do not come from the definition table. *)
Definition without_info (e : entry) : string * string * string * string :=
  (_id e, omim_id e, omim_disease e, medgen_concept_id e).

(** A stand-in for [pd.read_csv] that, like pandas, does not return a
    frame with duplicate labels: [plain_read_csv] with that check. *)
Definition checked_read_csv (text sep : string) (names : option (list string))
    : csv_result :=
  match plain_read_csv text sep names with
  | CsvOk df =>
      if bool_decide (NoDup (columns df)) then CsvOk df
      else CsvRaise "Duplicate names are not allowed."
  | CsvRaise msg => CsvRaise msg
  end.

(** ** Closed examples *)

(** A mapping table: a duplicated OMIM CUI, a blank row, a row without MIM
    number, and two rows that share a MIM number. *)
Definition ex_mapping_df : frame string :=
  Frame ["MIM_number"; "OMIM_name"; "OMIM_CUI"; "HPO_CUI"]
    [ ["100050"; "Example Disease"; "C001"; "H001"];
      ["100051"; "Other"; "C001"; "H002"];
      [""; ""; ""; ""];
      [""; "No number"; "C007"; ""];
      ["100050"; "Third"; "C009"; ""] ].

(** A parsed definitions file with a repeated CUI, a row without CUI, a row
    without DEF and a short row. *)
Definition ex_mgdef_frame : frame cell :=
  Frame ["CUI"; "DEF"]
    [ [Str "C001"; Str "def1"];
      [Str "C001"; Str "def2"];
      [Str "C002"; Str " def3 "];
      [Str ""; Str "x"];
      [Str "C003"; Str ""];
      [Str "C004"; NaN] ].

(** A parsed definitions file whose first row of a CUI has no DEF. *)
Definition ex_blank_def_frame : frame cell :=
  Frame ["CUI"; "DEF"]
    [ [Str "C1"; Str ""];
      [Str "C1"; Str "def2"] ].

(** The definitions of the spec's dedup example. *)
Definition ex_dedup_frame : frame cell :=
  Frame ["CUI"; "DEF"]
    [ [Str "C1"; Str "def1"];
      [Str "C1"; Str "def2"];
      [Str "C2"; Str "def3"] ].

(** A definitions file whose header carries a comment marker, and the same
    lines as a mapping file. *)
Definition ex_hash_fs : gmap string (list string) :=
  <["MGDEF" := [""; "#CUI,DEF"; "C1,def1"]]>
    (<["MAPPING" := [""; "#CUI,DEF"; "C1,def1"]]> ∅).

Definition ex_cui_def_map : gmap string string :=
  <["C001" := "def1"]> (<["C002" := "def3"]> (<["C004" := "nan"]> ∅)).

(** * Properties *)

(** ** Strings *)

Section StringFacts.

Lemma prefix_char c s :
  String.prefix (String c EmptyString) s = true <->
  exists s', s = String c s'.
Proof.
  destruct s as [|d s']; simpl.
  - split; [discriminate | intros [? ?]; discriminate].
  - destruct (ascii_dec c d) as [->|Hne].
    + split; [eauto | intros _; by destruct s'].
    + split; [discriminate | intros [? [=]]; congruence].
Qed.

Lemma contains_char c s :
  Py.contains (String c EmptyString) s = true <-> occurs c s.
Proof.
  unfold occurs. induction s as [|d s' IH].
  - simpl. split; [discriminate | tauto].
  - change (Py.contains (String c "") (String d s'))
      with (String.prefix (String c "") (String d s')
            || Py.contains (String c "") s').
    rewrite orb_true_iff, IH, prefix_char. simpl. split.
    + intros [[? [=]] | ?]; auto.
    + intros [-> | ?]; eauto.
Qed.

Lemma contains_char_false c s :
  Py.contains (String c EmptyString) s = false <-> ~ occurs c s.
Proof.
  rewrite <- contains_char. destruct (Py.contains _ s); split; congruence.
Qed.

End StringFacts.

(** ** Delimiter inference *)

(** C7.  Delimiter inference has strict precedence: a line with a tab gives
    tab; otherwise a line with a comma gives comma; otherwise a line with a
    pipe gives pipe; otherwise tab. *)
Theorem detect_delim_precedence (header_line : string) :
  (occurs "009" header_line -> detect_delim_from_header header_line = TAB)
  /\ (~ occurs "009" header_line -> occurs "," header_line ->
      detect_delim_from_header header_line = ",")
  /\ (~ occurs "009" header_line -> ~ occurs "," header_line ->
      occurs "|" header_line ->
      detect_delim_from_header header_line = "|")
  /\ (~ occurs "009" header_line -> ~ occurs "," header_line ->
      ~ occurs "|" header_line ->
      detect_delim_from_header header_line = TAB).
Proof.
  unfold detect_delim_from_header, TAB.
  change (ascii_of_nat 9) with "009"%char.
  repeat split.
  - intros Ht. apply contains_char in Ht. by rewrite Ht.
  - intros Ht Hc. apply contains_char_false in Ht. apply contains_char in Hc.
    by rewrite Ht, Hc.
  - intros Ht Hc Hp. apply contains_char_false in Ht, Hc.
    apply contains_char in Hp. by rewrite Ht, Hc, Hp.
  - intros Ht Hc Hp. apply contains_char_false in Ht, Hc, Hp.
    by rewrite Ht, Hc, Hp.
Qed.

Ltac occurs_tac :=
  unfold occurs; vm_compute;
  solve [ intuition discriminate | intuition (auto 10) ].

Lemma detect_delim_precedence_witness :
  detect_delim_from_header (String "009" "a,b|c") = TAB
  /\ detect_delim_from_header "a,b|c" = ","
  /\ detect_delim_from_header "a|b" = "|"
  /\ detect_delim_from_header "abc" = TAB.
Proof.
  pose proof (detect_delim_precedence (String "009" "a,b|c")) as (H1 & _).
  pose proof (detect_delim_precedence "a,b|c") as (_ & H2 & _).
  pose proof (detect_delim_precedence "a|b") as (_ & _ & H3 & _).
  pose proof (detect_delim_precedence "abc") as (_ & _ & _ & H4).
  split; [|split; [|split]].
  - apply H1. occurs_tac.
  - apply H2; occurs_tac.
  - apply H3; occurs_tac.
  - apply H4; occurs_tac.
Defined.

(** ** The join loop *)

Section JoinFacts.

Variable df : frame string.
Variable m : gmap string string.

Lemma run_loop_snoc rs r :
  run_loop df m (rs ++ [r])%list = loop_body df m (run_loop df m rs) r.
Proof. unfold run_loop. by rewrite foldl_app. Qed.

Lemma truthy_false s : Py.truthy s = false <-> s = "".
Proof. destruct s; simpl; split; congruence. Qed.

Lemma truthy_true s : Py.truthy s = true <-> s <> "".
Proof. destruct s; simpl; split; congruence. Qed.

Lemma all_blank_spec row :
  all_blank row = true <-> Forall (fun x => Py.strip x = "") row.
Proof.
  unfold all_blank. rewrite forallb_forall, Forall_forall.
  split; intros H x Hx.
  - apply String.eqb_eq, H. by apply list_elem_of_In.
  - apply String.eqb_eq, H. by apply list_elem_of_In.
Qed.

(** The four outcomes of one iteration. *)
Lemma loop_body_cases ss results row :
  (~ qualifies df row /\ loop_body df m (ss, results) row = (ss, results))
  \/ (qualifies df row /\ (get df row "OMIM_CUI") ∈ ss
      /\ loop_body df m (ss, results) row = (ss, results))
  \/ (qualifies df row /\ ~ (get df row "OMIM_CUI") ∈ ss
      /\ loop_body df m (ss, results) row
         = ({[get df row "OMIM_CUI"]} ∪ ss,
            (results ++ [make_entry df m row])%list)).
Proof.
  unfold loop_body, qualifies.
  destruct (all_blank row) eqn:Hb.
  { left. split; [|done]. apply all_blank_spec in Hb. tauto. }
  assert (~ Forall (fun x => Py.strip x = "") row) as Hnb.
  { rewrite <- all_blank_spec. congruence. }
  destruct (Py.truthy (get df row "MIM_number")) eqn:Hm; simpl.
  2:{ left. apply truthy_false in Hm. split; [tauto | done]. }
  destruct (Py.truthy (get df row "OMIM_CUI")) eqn:Hc; simpl.
  2:{ left. apply truthy_false in Hc. split; [tauto | done]. }
  apply truthy_true in Hm, Hc.
  case_bool_decide; [right; left | right; right]; done.
Qed.

Lemma loop_body_distinct st row :
  distinct_inv st -> distinct_inv (loop_body df m st row).
Proof.
  destruct st as [ss results]. intros [Hnd Hin].
  destruct (loop_body_cases ss results row)
    as [[_ ->] | [(_ & _ & ->) | (_ & Hnew & ->)]]; try done.
  split; simpl.
  - rewrite fmap_app. apply NoDup_app. split; [done|]. split.
    + intros c Hc Hc'. apply list_elem_of_fmap in Hc as [e [-> He]].
      apply list_elem_of_singleton in Hc'. simpl in Hc'.
      apply Hin in He. simpl in He. congruence.
    + apply NoDup_singleton.
  - intros e He. apply elem_of_app in He as [He | He].
    + apply Hin in He. set_solver.
    + apply list_elem_of_singleton in He. subst e. simpl. set_solver.
Qed.

Lemma foldl_distinct rs st :
  distinct_inv st -> distinct_inv (foldl (loop_body df m) st rs).
Proof.
  revert st. induction rs as [|r rs IH]; intros st Hst; simpl; [done|].
  apply IH. by apply loop_body_distinct.
Qed.

Lemma increasing_snoc idxs n :
  increasing idxs -> (forall i, i ∈ idxs -> (i < n)%nat) ->
  increasing (idxs ++ [n]).
Proof.
  intros Hinc Hlt a b i j Ha Hb Hab.
  assert (a < List.length idxs)%nat as Hal.
  { apply lookup_lt_Some in Hb. rewrite length_app in Hb. simpl in Hb. lia. }
  rewrite lookup_app_l in Ha by done.
  destruct (decide (b < List.length idxs)%nat) as [Hbl | Hbl].
  - rewrite lookup_app_l in Hb by done. eauto.
  - rewrite lookup_app_r in Hb by lia.
    destruct (b - List.length idxs)%nat eqn:E; simpl in Hb; [|done].
    injection Hb as <-. apply Hlt. apply list_elem_of_lookup. eauto.
Qed.

Lemma entry_of_row_lookup n row :
  rows df !! n = Some row -> entry_of_row df m n = make_entry df m row.
Proof.
  intros H. unfold entry_of_row. f_equal. by apply nth_lookup_Some.
Qed.

Lemma prefix_inv_step n row st :
  rows df !! n = Some row ->
  prefix_inv df m n st -> prefix_inv df m (S n) (loop_body df m st row).
Proof.
  intros Hrow [Hss (idxs & Hres & Hinc & Hidx)].
  destruct st as [ss results]. simpl in Hss, Hres.
  assert (forall c, (exists j row', (j < S n)%nat /\ rows df !! j = Some row'
               /\ qualifies df row' /\ get df row' "OMIM_CUI" = c)
            <-> c ∈ ss \/ (qualifies df row /\ get df row "OMIM_CUI" = c))
    as Hsplit.
  { intros c. rewrite Hss. split.
    - intros (j & row' & Hj & Hl & Hq & Hc).
      destruct (decide (j = n)) as [-> | Hne].
      + right. rewrite Hrow in Hl. injection Hl as <-. done.
      + left. exists j, row'. split_and!; try done; lia.
    - intros [(j & row' & Hj & Hl & Hq & Hc) | [Hq Hc]].
      + exists j, row'. split_and!; try done; lia.
      + exists n, row. split_and!; try done; lia. }
  assert (forall i, (i < S n)%nat /\ first_seen df i <->
            i ∈ idxs \/ (i = n /\ first_seen df n)) as Hsplit'.
  { intros i. rewrite Hidx. split.
    - intros [Hi Hf]. destruct (decide (i = n)) as [-> | Hne]; [by right|].
      left. split; [lia | done].
    - intros [[Hi Hf] | [-> Hf]]; (split; [lia | done]). }
  destruct (loop_body_cases ss results row)
    as [[Hnq ->] | [(Hq & Hseen & ->) | (Hq & Hnew & ->)]]; simpl.
  - split.
    + intros c. rewrite Hsplit. tauto.
    + exists idxs. split_and!; try done. intros i. split.
      * intros Hi. apply Hsplit'. by left.
      * intros Hi. apply Hsplit' in Hi as [Hi | [-> (row' & Hl & Hq & _)]].
        { done. }
        rewrite Hrow in Hl. injection Hl as <-. done.
  - split.
    + intros c. rewrite Hsplit. split; [by left|].
      intros [Hc | [_ <-]]; done.
    + exists idxs. split_and!; try done. intros i. split.
      * intros Hi. apply Hsplit'. by left.
      * intros Hi. apply Hsplit' in Hi as [Hi | [-> (row' & Hl & _ & Hfirst)]].
        { done. }
        rewrite Hrow in Hl. injection Hl as <-.
        apply Hss in Hseen as (j & rowj & Hj & Hlj & Hqj & Hcj).
        exfalso. by eapply Hfirst.
  - assert (first_seen df n) as Hfs.
    { exists row. split_and!; try done.
      intros j row' Hj Hl Hq' Heq. apply Hnew, Hss. eauto 10. }
    split.
    + intros c. simpl. rewrite Hsplit, elem_of_union, elem_of_singleton.
      split.
      * intros [-> | Hc]; [by right | by left].
      * intros [Hc | [_ <-]]; [by right | by left].
    + exists (idxs ++ [n])%list. split; [|split].
      * rewrite fmap_app. simpl. f_equal; [done|].
        by rewrite (entry_of_row_lookup n row).
      * apply increasing_snoc; [done|]. intros i Hi. by apply Hidx in Hi as [? _].
      * intros i. rewrite elem_of_app, list_elem_of_singleton, Hsplit'.
        split; [intros [?| ->]; auto | intros [?|[-> _]]; auto].
Qed.

Lemma prefix_inv_run n :
  (n <= List.length (rows df))%nat ->
  prefix_inv df m n (run_loop df m (take n (rows df))).
Proof.
  induction n as [|n IH]; intros Hn.
  - rewrite take_0. split; simpl.
    + intros c. split; [set_solver|]. intros (j & _ & Hj & _). lia.
    + exists []. split_and!; [done | by intros a b i j Ha |].
      intros i. split; [intros Hi; by apply elem_of_nil in Hi|].
      intros [Hi _]. lia.
  - destruct (lookup_lt_is_Some_2 (rows df) n) as [row Hrow]; [lia|].
    rewrite (take_S_r _ _ _ Hrow), run_loop_snoc.
    apply prefix_inv_step; [done|]. apply IH. lia.
Qed.

End JoinFacts.

(** C1.  A row of the mapping table yields an output record exactly when it
    is not all blank, has a MIM number and an OMIM CUI, and no earlier
    qualifying row has the same OMIM CUI; the output lists the records of
    these rows in file order. *)
Theorem build_rows_first_seen (df : frame string) (m : gmap string string) :
  frame_wf df ->
  exists idxs : list nat,
    build_list_of_dicts df m = entry_of_row df m <$> idxs
    /\ increasing idxs
    /\ forall i, i ∈ idxs <-> first_seen df i.
Proof.
  intros _.
  destruct (prefix_inv_run df m (List.length (rows df))) as [_ (idxs & Hres & Hinc & Hidx)];
    [done|].
  rewrite firstn_all in Hres.
  exists idxs. split_and!; try done. intros i. split.
  - intros Hi. by apply Hidx in Hi as [_ ?].
  - intros Hf. apply Hidx. split; [|done].
    destruct Hf as (row & Hl & _). by apply lookup_lt_Some in Hl.
Qed.

(** C2.  The medgen_concept_id values of the output records are pairwise
    distinct. *)
Theorem build_concept_ids_distinct (df : frame string) (m : gmap string string) :
  frame_wf df ->
  NoDup (medgen_concept_id <$> build_list_of_dicts df m).
Proof.
  intros _. unfold build_list_of_dicts, run_loop.
  apply (foldl_distinct df m (rows df) (∅, [])).
  split; simpl; [apply NoDup_nil_2 | intros e He; by apply elem_of_nil in He].
Qed.

Lemma ex_mapping_df_wf : frame_wf ex_mapping_df.
Proof.
  split.
  - intros _. apply (bool_decide_unpack _). by vm_compute.
  - repeat constructor.
Qed.

Lemma build_rows_first_seen_witness :
  exists idxs : list nat,
    build_list_of_dicts ex_mapping_df ex_cui_def_map
      = entry_of_row ex_mapping_df ex_cui_def_map <$> idxs
    /\ increasing idxs
    /\ forall i, i ∈ idxs <-> first_seen ex_mapping_df i.
Proof.
  apply (build_rows_first_seen ex_mapping_df ex_cui_def_map).
  apply ex_mapping_df_wf.
Defined.

Lemma build_concept_ids_distinct_witness :
  NoDup (medgen_concept_id <$> build_list_of_dicts ex_mapping_df ex_cui_def_map).
Proof.
  apply (build_concept_ids_distinct ex_mapping_df ex_cui_def_map).
  apply ex_mapping_df_wf.
Defined.

Example ex_build :
  build_list_of_dicts ex_mapping_df ex_cui_def_map
  = [ Entry "100050" "100050" "Example Disease" "C001" "def1";
      Entry "100050" "100050" "Third" "C009" "NA" ].
Proof. by vm_compute. Qed.

(** ** The definition looked up for a record *)

Section LookupFacts.

Variable df : frame string.
Variable m : gmap string string.

Lemma concept_id_make_entry row :
  medgen_concept_id (make_entry df m row) = get df row "OMIM_CUI".
Proof. reflexivity. Qed.

Lemma info_make_entry row :
  medgen_disease_info (make_entry df m row)
  = lookup_info m (get df row "OMIM_CUI") (get df row "HPO_CUI").
Proof. reflexivity. Qed.

(** A lookup that misses gives "NA", whatever the HPO CUI. *)
Lemma lookup_info_miss cui hpo :
  m !! cui = None -> lookup_info m cui hpo = "NA".
Proof.
  intros H. unfold lookup_info, Py.dict_get. by rewrite H.
Qed.

(** A lookup that finds a non-empty definition returns it. *)
Lemma lookup_info_hit cui hpo d :
  m !! cui = Some d -> d <> "" ->
  fallback_taken (Py.dict_get m cui "NA") hpo = false
  /\ lookup_info m cui hpo = d.
Proof.
  intros H Hd. unfold lookup_info, fallback_taken, Py.dict_get. rewrite H.
  apply truthy_true in Hd. by rewrite Hd.
Qed.

(** Every record of the output is the record of a first-seen row. *)
Lemma build_elem e :
  e ∈ build_list_of_dicts df m <->
  exists i, first_seen df i /\ e = entry_of_row df m i.
Proof.
  destruct (prefix_inv_run df m (List.length (rows df)))
    as [_ (idxs & Hres & _ & Hidx)]; [done|].
  rewrite firstn_all in Hres. unfold build_list_of_dicts. rewrite Hres.
  rewrite list_elem_of_fmap. split.
  - intros (i & -> & Hi). exists i. split; [|done]. by apply Hidx in Hi as [_ ?].
  - intros (i & Hf & ->). exists i. split; [done|]. apply Hidx. split; [|done].
    destruct Hf as (row & Hl & _). by apply lookup_lt_Some in Hl.
Qed.

End LookupFacts.

(** C3.  With a definition table (its definitions are non-empty), the
    guard of the HPO_CUI fallback is false for every row, the definition
    looked up does not depend on the HPO CUI, and every output record
    carries the table's value for its OMIM CUI, or "NA" when there is
    none. *)
Theorem fallback_never_taken (df : frame string) (m : gmap string string) :
  frame_wf df -> definition_table m ->
  (forall row hpo,
      fallback_taken (Py.dict_get m (get df row "OMIM_CUI") "NA") hpo = false)
  /\ (forall cui hpo hpo', lookup_info m cui hpo = lookup_info m cui hpo')
  /\ (forall e, e ∈ build_list_of_dicts df m ->
        medgen_disease_info e
        = match m !! medgen_concept_id e with Some d => d | None => "NA" end).
Proof.
  intros _ Hm.
  assert (forall cui hpo,
             fallback_taken (Py.dict_get m cui "NA") hpo = false
             /\ lookup_info m cui hpo
                = match m !! cui with Some d => d | None => "NA" end) as H.
  { intros cui hpo. destruct (m !! cui) as [d|] eqn:E.
    - apply lookup_info_hit; [done|]. by apply Hm in E as (_ & ? & _).
    - split; [|by apply lookup_info_miss].
      unfold fallback_taken, Py.dict_get. by rewrite E. }
  split_and!.
  - intros row hpo. apply H.
  - intros cui hpo hpo'. by rewrite (proj2 (H cui hpo)), (proj2 (H cui hpo')).
  - intros e He. apply build_elem in He as (i & _ & ->).
    unfold entry_of_row. rewrite info_make_entry, concept_id_make_entry.
    apply H.
Qed.

(** C6.  The record emitted for a first-seen qualifying row has
    medgen_disease_info "NA" when the OMIM CUI of the row has no entry in
    the definition table, and the entry's definition when it has one (a
    definition table holds no empty definition). *)
Theorem info_is_definition_or_NA (df : frame string) (m : gmap string string) :
  frame_wf df ->
  forall i row, rows df !! i = Some row -> first_seen df i ->
    let e := make_entry df m row in
    e ∈ build_list_of_dicts df m
    /\ medgen_concept_id e = get df row "OMIM_CUI"
    /\ (m !! get df row "OMIM_CUI" = None -> medgen_disease_info e = "NA")
    /\ (definition_table m ->
        forall d, m !! get df row "OMIM_CUI" = Some d ->
          medgen_disease_info e = d).
Proof.
  intros _ i row Hrow Hf e. subst e. split_and!.
  - apply build_elem. exists i. split; [done|].
    symmetry. by apply entry_of_row_lookup.
  - reflexivity.
  - intros E. rewrite info_make_entry. by apply lookup_info_miss.
  - intros Hm d E. rewrite info_make_entry.
    apply lookup_info_hit; [done|]. by apply Hm in E as (_ & ? & _).
Qed.

(** ** Trimming *)

Section StripFacts.

Variable p : ascii -> bool.

Lemma lstrip_by_head s :
  Py.lstrip_by p s = EmptyString
  \/ exists c t, Py.lstrip_by p s = String c t /\ p c = false.
Proof.
  induction s as [|c s' IH]; simpl; [by left|].
  destruct (p c) eqn:E; [done|]. right. eauto.
Qed.

Lemma lstrip_by_fixed c t :
  p c = false -> Py.lstrip_by p (String c t) = String c t.
Proof. intros H. simpl. by rewrite H. Qed.

Lemma rstrip_by_head c t :
  p c = false -> exists u, Py.rstrip_by p (String c t) = String c u.
Proof.
  intros H. simpl. destruct (Py.rstrip_by p t); rewrite ?H; eauto.
Qed.

Lemma rstrip_by_idemp s :
  Py.rstrip_by p (Py.rstrip_by p s) = Py.rstrip_by p s.
Proof.
  induction s as [|c s' IH]; simpl; [done|].
  destruct (Py.rstrip_by p s') as [|d t] eqn:E.
  - destruct (p c) eqn:Ec; simpl; [done|]. by rewrite Ec.
  - change (Py.rstrip_by p (String c (String d t)))
      with (match Py.rstrip_by p (String d t) with
            | EmptyString => if p c then EmptyString else String c EmptyString
            | u => String c u
            end).
    by rewrite IH.
Qed.

End StripFacts.

Lemma strip_idemp s : Py.strip (Py.strip s) = Py.strip s.
Proof.
  unfold Py.strip.
  destruct (lstrip_by_head Py.isspace s) as [-> | (c & t & -> & Hc)]; [done|].
  destruct (rstrip_by_head Py.isspace c t Hc) as [u Hu].
  rewrite Hu, (lstrip_by_fixed _ _ _ Hc), <- Hu. apply rstrip_by_idemp.
Qed.

Lemma strip_empty : Py.strip "" = "".
Proof. reflexivity. Qed.

(** ** Column lookup *)

Lemma lower_colmap_snoc cols c :
  lower_colmap (cols ++ [c]) = <[Py.lower c := c]> (lower_colmap cols).
Proof. unfold lower_colmap. by rewrite foldl_snoc. Qed.

Lemma lower_colmap_Some cols k c :
  lower_colmap cols !! k = Some c -> c ∈ cols /\ Py.lower c = k.
Proof.
  induction cols as [|d cols IH] using rev_ind.
  - unfold lower_colmap. simpl. by rewrite lookup_empty.
  - rewrite lower_colmap_snoc, lookup_insert. case_decide as E.
    + intros [= ->]. split; [|done]. apply elem_of_app. right. by left.
    + intros H. apply IH in H as [? ?]. split; [|done].
      apply elem_of_app. by left.
Qed.

Lemma lower_colmap_is_Some cols k :
  is_Some (lower_colmap cols !! k) <-> exists c, c ∈ cols /\ Py.lower c = k.
Proof.
  split.
  - intros [c H]. exists c. by apply lower_colmap_Some.
  - induction cols as [|d cols IH] using rev_ind.
    + intros (c & Hc & _). by apply elem_of_nil in Hc.
    + intros (c & Hc & Hk). rewrite lower_colmap_snoc, lookup_insert.
      case_decide; [by eexists|]. apply IH. exists c. split; [|done].
      apply elem_of_app in Hc as [Hc | Hc]; [done|].
      apply list_elem_of_singleton in Hc. congruence.
Qed.

Lemma col_index_Some label cols i :
  col_index label cols = Some i -> cols !! i = Some label.
Proof.
  revert i. induction cols as [|c cols IH]; intros i; simpl; [done|].
  destruct (String.eqb_spec c label) as [-> | Hne].
  - by intros [= <-].
  - destruct (col_index label cols) as [j|]; simpl; [|done].
    intros [= <-]. simpl. by apply IH.
Qed.

Lemma col_index_elem label cols :
  label ∈ cols -> exists i, col_index label cols = Some i.
Proof.
  induction cols as [|c cols IH]; [by intros ?%elem_of_nil|].
  intros H. simpl. destruct (String.eqb_spec c label) as [-> | Hne]; [eauto|].
  apply elem_of_cons in H as [-> | H]; [done|].
  destruct (IH H) as [i ->]. simpl. eauto.
Qed.

(** ** Dropping duplicates and building the dict *)

Section DedupFacts.

(** [key] and [val] read the two columns of a row. *)
Variable key val : list cell -> cell.

Lemma series_to_dict_rows D (m0 : gmap string string) :
  foldl (fun m kv => <[py_str kv.1 := py_str kv.2]> m) m0
    (zip (map key D) (map val D))
  = foldl (fun m r => <[py_str (key r) := py_str (val r)]> m) m0 D.
Proof.
  revert m0. induction D as [|r D IH]; intros m0; simpl; [done|]. apply IH.
Qed.

(** With distinct keys, inserting left to right gives the map of the
    pairs. *)
Lemma foldl_insert_distinct D :
  NoDup (map (fun r => py_str (key r)) D) ->
  foldl (fun m r => <[py_str (key r) := py_str (val r)]> m)
    (∅ : gmap string string) D
  = list_to_map (map (pair_of key val) D).
Proof.
  induction D as [|r D IH] using rev_ind; intros Hnd; [done|].
  rewrite map_app in Hnd. apply NoDup_app in Hnd as (Hnd & Hnotin & _).
  rewrite foldl_snoc, map_app, IH by done. simpl.
  change [pair_of key val r] with [(py_str (key r), py_str (val r))].
  rewrite list_to_map_snoc; [done|].
  intros Hin. apply (Hnotin (py_str (key r))).
  - rewrite <- list_fmap_compose in Hin. exact Hin.
  - by left.
Qed.

Lemma drop_dups_keys L seen r :
  r ∈ drop_dups_go key seen L -> r ∈ L /\ key r ∉ seen.
Proof.
  revert seen. induction L as [|x L IH]; intros seen; simpl.
  - by intros ?%elem_of_nil.
  - case_bool_decide as E.
    + intros H. apply IH in H as [? ?]. split; [by right | done].
    + intros H. apply elem_of_cons in H as [-> | H]; [split; [by left | done]|].
      apply IH in H as [? Hn]. split; [by right|].
      intros Hs. apply Hn. apply elem_of_union. by right.
Qed.

Lemma drop_dups_NoDup L seen :
  str_keys key L ->
  NoDup (map (fun r => py_str (key r)) (drop_dups_go key seen L)).
Proof.
  revert seen. induction L as [|x L IH]; intros seen HL; simpl.
  - apply NoDup_nil_2.
  - apply Forall_cons in HL as [Hx HL]. case_bool_decide as E; [by apply IH|].
    simpl. apply NoDup_cons. split; [|by apply IH].
    intros Hin. apply (proj1 (list_elem_of_fmap _ _ _)) in Hin
      as (r & Heq & Hr).
    assert (r ∈ L) as HrL by (by apply drop_dups_keys in Hr as [? _]).
    apply drop_dups_keys in Hr as [_ Hr]. apply Hr.
    rewrite Forall_forall in HL. rewrite (HL r HrL), <- Heq, <- Hx.
    set_solver.
Qed.

Lemma drop_dups_lookup L seen k :
  str_keys key L ->
  (list_to_map (map (pair_of key val) (drop_dups_go key seen L)) : gmap string string) !! k
  = if decide (Str k ∈ seen) then None
    else (list_to_map (map (pair_of key val) L) : gmap string string) !! k.
Proof.
  revert seen. induction L as [|x L IH]; intros seen HL; simpl.
  - rewrite lookup_empty. by case_decide.
  - apply Forall_cons in HL as [Hx HL]. case_bool_decide as E.
    + rewrite IH by done. case_decide as Ek; [done|].
      rewrite lookup_insert_ne; [done|]. intros Heq. apply Ek.
      by rewrite <- Heq, <- Hx.
    + simpl. destruct (decide (py_str (key x) = k)) as [<- | Hne].
      * rewrite !lookup_insert_eq. rewrite <- Hx. by case_decide.
      * rewrite !lookup_insert_ne by done. rewrite IH by done.
        repeat case_decide; try done; exfalso.
        -- match goal with
           | Hin : Str k ∈ {[key x]} ∪ seen |- _ =>
               apply elem_of_union in Hin as [Hk%elem_of_singleton | Hin];
                 [|done]
           end.
           rewrite Hx in Hk. by injection Hk as ->.
        -- match goal with
           | Hout : ~ Str k ∈ {[key x]} ∪ seen |- _ =>
               apply Hout, elem_of_union; by right
           end.
Qed.

(** Lines 79-81 on rows whose keys are strings: the first row of each key
    gives the value. *)
Lemma dedup_to_dict L :
  str_keys key L ->
  series_to_dict (map key (drop_dups_go key ∅ L))
    (map val (drop_dups_go key ∅ L))
  = list_to_map (map (pair_of key val) L).
Proof.
  intros HL. unfold series_to_dict.
  rewrite series_to_dict_rows, foldl_insert_distinct
    by by apply drop_dups_NoDup.
  apply map_eq. intros k. rewrite drop_dups_lookup by done.
  case_decide; [set_solver | done].
Qed.

End DedupFacts.

(** ** The definition table built from a parsed frame *)

Section CellFacts.

Context {C : Type}.
Variable f : C -> C.
Variable d : C.

Lemma nth_update_cell_eq i (r : list C) :
  (i < List.length r)%nat -> nth i (update_cell f i r) d = f (nth i r d).
Proof.
  intros Hi. unfold update_cell.
  destruct (lookup_lt_is_Some_2 r i Hi) as [x Hx]. rewrite Hx.
  rewrite (nth_lookup_Some r i d x Hx).
  apply nth_lookup_Some. by apply list_lookup_insert_eq.
Qed.

Lemma nth_update_cell_ne i j (r : list C) :
  i <> j -> nth j (update_cell f i r) d = nth j r d.
Proof.
  intros Hij. unfold update_cell. destruct (r !! i) as [x|]; [|done].
  rewrite !nth_lookup. by rewrite list_lookup_insert_ne.
Qed.

Lemma length_update_cell i (r : list C) :
  List.length (update_cell f i r) = List.length r.
Proof.
  unfold update_cell. destruct (r !! i); [apply length_insert | done].
Qed.

End CellFacts.

Lemma update_col_at {C} (f : C -> C) label (df : frame C) i :
  col_index label (columns df) = Some i ->
  update_col f label df = Frame (columns df) (map (update_cell f i) (rows df)).
Proof. intros H. unfold update_col. by rewrite H. Qed.

Lemma bool_decide_Str a b :
  bool_decide (Str a = Str b) = String.eqb a b.
Proof.
  destruct (String.eqb_spec a b) as [-> | Hne].
  - by apply bool_decide_eq_true_2.
  - apply bool_decide_eq_false_2. congruence.
Qed.

Section MgdefFacts.

Variable df : frame cell.
Variables col_cui col_def : string.
Hypothesis df_wf : frame_wf df.
Hypothesis cui_found : lower_colmap (columns df) !! "cui" = Some col_cui.
Hypothesis def_found : lower_colmap (columns df) !! "def" = Some col_def.

Lemma cui_def_positions :
  exists i j, col_index col_cui (columns df) = Some i
    /\ col_index col_def (columns df) = Some j
    /\ i <> j
    /\ Forall (fun r => (i < List.length r)%nat /\ (j < List.length r)%nat)
         (rows df).
Proof.
  destruct (lower_colmap_Some _ _ _ cui_found) as [Hc Hlc].
  destruct (lower_colmap_Some _ _ _ def_found) as [Hd Hld].
  destruct (col_index_elem _ _ Hc) as [i Hi].
  destruct (col_index_elem _ _ Hd) as [j Hj].
  exists i, j. split_and!; try done.
  - intros ->. apply col_index_Some in Hi, Hj.
    rewrite Hi in Hj. injection Hj as ->. rewrite Hld in Hlc. discriminate.
  - destruct df_wf as [_ Hlen]. eapply Forall_impl; [exact Hlen|].
    intros r Hr. simpl in Hr. rewrite Hr.
    apply col_index_Some in Hi, Hj.
    split; eapply lookup_lt_Some; eauto.
Qed.

(** The dict of [read_mgdef_map]: the first kept row of each CUI gives
    the definition. *)
Lemma mgdef_map_of_frame_pairs :
  mgdef_map_of_frame df = Ok (list_to_map (kept_pairs df col_cui col_def)).
Proof.
  destruct cui_def_positions as (i & j & Hi & Hj & Hij & Hlen).
  unfold mgdef_map_of_frame. rewrite cui_found, def_found.
  rewrite (update_col_at _ col_cui df i Hi).
  rewrite (update_col_at _ col_def (Frame (columns df) _) j Hj).
  unfold filter_rows, drop_duplicates_first, col_values. cbn [columns rows].
  set (sc := fun x => Str (Py.strip (py_str x))).
  set (U := fun r => update_cell sc j (update_cell sc i r)).
  rewrite map_map. fold U.
  assert (forall r, r ∈ rows df ->
            row_at NaN (columns df) (U r) col_cui = Str (trimmed_at df col_cui r)
            /\ row_at NaN (columns df) (U r) col_def = Str (trimmed_at df col_def r))
    as HU.
  { intros r Hr. rewrite Forall_forall in Hlen. destruct (Hlen r Hr) as [Hir Hjr].
    unfold trimmed_at, row_at. rewrite Hi, Hj. unfold U. split.
    - rewrite nth_update_cell_ne by done. by rewrite nth_update_cell_eq.
    - rewrite nth_update_cell_eq by by rewrite length_update_cell.
      by rewrite nth_update_cell_ne. }
  f_equal.
  rewrite (dedup_to_dict (fun r => row_at NaN (columns df) r col_cui)
             (fun r => row_at NaN (columns df) r col_def)).
  - f_equal. unfold kept_pairs. rewrite filter_map_swap, map_map.
    rewrite (filter_ext_in _
               (fun r => negb (String.eqb (trimmed_at df col_cui r) "")
                         && negb (String.eqb (trimmed_at df col_def r) ""))).
    + apply map_ext_in. intros r Hr. apply filter_In in Hr as [Hr _].
      apply list_elem_of_In in Hr. destruct (HU r Hr) as [E1 E2].
      unfold pair_of. by rewrite E1, E2.
    + intros r Hr. apply list_elem_of_In in Hr. destruct (HU r Hr) as [E1 E2].
      by rewrite E1, E2, !bool_decide_Str.
  - unfold str_keys. rewrite Forall_forall. intros r Hr.
    apply list_elem_of_In, filter_In in Hr as [Hr _].
    apply in_map_iff in Hr as (r0 & <- & Hr0). apply list_elem_of_In in Hr0.
    destruct (HU r0 Hr0) as [E1 _]. by rewrite E1.
Qed.

End MgdefFacts.

Lemma mgdef_map_of_frame_Ok df m :
  mgdef_map_of_frame df = Ok m ->
  exists col_cui col_def,
    lower_colmap (columns df) !! "cui" = Some col_cui
    /\ lower_colmap (columns df) !! "def" = Some col_def.
Proof.
  unfold mgdef_map_of_frame.
  destruct (lower_colmap (columns df) !! "cui") as [a|];
    destruct (lower_colmap (columns df) !! "def") as [b|]; try discriminate.
  eauto.
Qed.

Lemma kept_pairs_elem df col_cui col_def k v :
  (k, v) ∈ kept_pairs df col_cui col_def <->
  exists row, row ∈ rows df
    /\ trimmed_at df col_cui row = k /\ trimmed_at df col_def row = v
    /\ k <> "" /\ v <> "".
Proof.
  unfold kept_pairs. rewrite list_elem_of_In, in_map_iff. split.
  - intros (r & [= <- <-] & Hr). apply filter_In in Hr as [Hr Hk].
    apply andb_true_iff in Hk as [Hk Hv].
    apply negb_true_iff, String.eqb_neq in Hk, Hv.
    exists r. by rewrite list_elem_of_In.
  - intros (r & Hr & <- & <- & Hk & Hv). exists r. split; [done|].
    apply filter_In. split; [by apply list_elem_of_In|].
    apply String.eqb_neq in Hk, Hv. by rewrite Hk, Hv.
Qed.

(** The dict of [read_mgdef_map] is a definition table, and every entry
    comes from a row whose trimmed CUI and DEF are both non-empty. *)
Lemma mgdef_entries df m :
  frame_wf df -> mgdef_map_of_frame df = Ok m ->
  exists col_cui col_def,
    lower_colmap (columns df) !! "cui" = Some col_cui
    /\ lower_colmap (columns df) !! "def" = Some col_def
    /\ m = list_to_map (kept_pairs df col_cui col_def)
    /\ forall k v, m !! k = Some v ->
         exists row, row ∈ rows df
           /\ trimmed_at df col_cui row = k /\ trimmed_at df col_def row = v
           /\ k <> "" /\ v <> "".
Proof.
  intros Hwf Hm.
  destruct (mgdef_map_of_frame_Ok df m Hm) as (col_cui & col_def & Hc & Hd).
  exists col_cui, col_def. split_and!; try done.
  - rewrite (mgdef_map_of_frame_pairs df col_cui col_def Hwf Hc Hd) in Hm.
    by injection Hm.
  - intros k v Hkv.
    rewrite (mgdef_map_of_frame_pairs df col_cui col_def Hwf Hc Hd) in Hm.
    injection Hm as <-. apply elem_of_list_to_map_2 in Hkv.
    by apply kept_pairs_elem.
Qed.

Lemma mgdef_definition_table df m :
  frame_wf df -> mgdef_map_of_frame df = Ok m -> definition_table m.
Proof.
  intros Hwf Hm k v Hkv.
  destruct (mgdef_entries df m Hwf Hm) as (cc & cd & _ & _ & _ & Hrows).
  destruct (Hrows k v Hkv) as (row & _ & <- & <- & Hk & Hv).
  split_and!; try done; unfold trimmed_at; apply strip_idemp.
Qed.

(** C5.  A row whose trimmed CUI or trimmed DEF is empty is never stored
    in the definition table, whatever its other field holds; every key and
    every definition of the table is a non-empty trimmed string. *)
Theorem mgdef_drops_empty_fields (df : frame cell) (m : gmap string string) :
  frame_wf df -> mgdef_map_of_frame df = Ok m ->
  exists col_cui col_def,
    lower_colmap (columns df) !! "cui" = Some col_cui
    /\ lower_colmap (columns df) !! "def" = Some col_def
    /\ (forall row, row ∈ rows df ->
          trimmed_at df col_cui row = "" \/ trimmed_at df col_def row = "" ->
          m !! trimmed_at df col_cui row <> Some (trimmed_at df col_def row))
    /\ (forall k v, m !! k = Some v ->
          exists row, row ∈ rows df
            /\ trimmed_at df col_cui row = k /\ trimmed_at df col_def row = v
            /\ k <> "" /\ v <> "")
    /\ (forall k v, m !! k = Some v ->
          k <> "" /\ v <> "" /\ Py.strip k = k /\ Py.strip v = v).
Proof.
  intros Hwf Hm.
  destruct (mgdef_entries df m Hwf Hm) as (cc & cd & Hc & Hd & _ & Hrows).
  exists cc, cd. split_and!; try done.
  - intros row _ Hempty Hstored.
    destruct (Hrows _ _ Hstored) as (_ & _ & _ & _ & Hk & Hv).
    destruct Hempty; congruence.
  - by apply (mgdef_definition_table df).
Qed.

Lemma ex_mgdef_frame_wf : frame_wf ex_mgdef_frame.
Proof.
  split.
  - intros _. apply (bool_decide_unpack _). by vm_compute.
  - repeat constructor.
Qed.

Lemma ex_mgdef_frame_map : mgdef_map_of_frame ex_mgdef_frame = Ok ex_cui_def_map.
Proof. by vm_compute. Qed.

Lemma mgdef_drops_empty_fields_witness :
  exists col_cui col_def,
    lower_colmap (columns ex_mgdef_frame) !! "cui" = Some col_cui
    /\ lower_colmap (columns ex_mgdef_frame) !! "def" = Some col_def
    /\ (forall row, row ∈ rows ex_mgdef_frame ->
          trimmed_at ex_mgdef_frame col_cui row = ""
          \/ trimmed_at ex_mgdef_frame col_def row = "" ->
          ex_cui_def_map !! trimmed_at ex_mgdef_frame col_cui row
          <> Some (trimmed_at ex_mgdef_frame col_def row))
    /\ (forall k v, ex_cui_def_map !! k = Some v ->
          exists row, row ∈ rows ex_mgdef_frame
            /\ trimmed_at ex_mgdef_frame col_cui row = k
            /\ trimmed_at ex_mgdef_frame col_def row = v
            /\ k <> "" /\ v <> "")
    /\ (forall k v, ex_cui_def_map !! k = Some v ->
          k <> "" /\ v <> "" /\ Py.strip k = k /\ Py.strip v = v).
Proof.
  apply (mgdef_drops_empty_fields ex_mgdef_frame ex_cui_def_map).
  - apply ex_mgdef_frame_wf.
  - apply ex_mgdef_frame_map.
Defined.

(** ** Duplicate CUIs in the definitions file *)

(** The first row of a CUI does not win when its DEF is blank: line 76
    drops it before line 79 looks for duplicates.  Here the first row with
    CUI "C1" has the empty DEF and the table holds "def2". *)
Lemma first_row_blank_def_counterexample :
  exists m row,
    mgdef_map_of_frame ex_blank_def_frame = Ok m
    /\ rows ex_blank_def_frame !! 0%nat = Some row
    /\ trimmed_at ex_blank_def_frame "CUI" row = "C1"
    /\ trimmed_at ex_blank_def_frame "DEF" row = ""
    /\ m !! "C1" = Some "def2"
    /\ m !! "C1" <> Some (trimmed_at ex_blank_def_frame "DEF" row).
Proof.
  exists (<["C1" := "def2"]> ∅), [Str "C1"; Str ""].
  split_and!; try by vm_compute.
Qed.

(** Lookup in the map of a list of pairs: the first pair of a key wins. *)
Lemma list_to_map_first (l1 l2 : list (string * string)) k v :
  k ∉ l1.*1 ->
  (list_to_map (l1 ++ (k, v) :: l2) : gmap string string) !! k = Some v.
Proof.
  intros Hk. rewrite list_to_map_app, lookup_union_r.
  - apply lookup_insert_eq.
  - by apply not_elem_of_list_to_map_1.
Qed.

(** C4 (amended).  When several rows have the same trimmed CUI, the
    definition table maps that CUI to the trimmed DEF of the first such row
    whose trimmed DEF is non-empty, provided the CUI is non-empty; rows
    (C1,"def1"), (C1,"def2"), (C2,"def3") give C1 -> "def1" and
    C2 -> "def3". *)
Theorem first_kept_row_wins (df : frame cell) (m : gmap string string)
    (col_cui col_def : string) :
  frame_wf df ->
  lower_colmap (columns df) !! "cui" = Some col_cui ->
  lower_colmap (columns df) !! "def" = Some col_def ->
  mgdef_map_of_frame df = Ok m ->
  (forall i row, rows df !! i = Some row ->
     trimmed_at df col_cui row <> "" ->
     trimmed_at df col_def row <> "" ->
     (forall j row', (j < i)%nat -> rows df !! j = Some row' ->
        trimmed_at df col_cui row' = trimmed_at df col_cui row ->
        trimmed_at df col_def row' = "") ->
     m !! trimmed_at df col_cui row = Some (trimmed_at df col_def row))
  /\ mgdef_map_of_frame ex_dedup_frame
     = Ok (<["C1" := "def1"]> (<["C2" := "def3"]> ∅)).
Proof.
  intros Hwf Hc Hd Hm. split; [|by vm_compute].
  intros i row Hrow Hk Hv Hfirst.
  rewrite (mgdef_map_of_frame_pairs df col_cui col_def Hwf Hc Hd) in Hm.
  injection Hm as <-. unfold kept_pairs.
  rewrite <- (take_drop_middle (rows df) i row Hrow).
  rewrite List.filter_app, map_app. simpl.
  apply String.eqb_neq in Hk as Hk', Hv as Hv'. rewrite Hk', Hv'. simpl.
  apply list_to_map_first.
  intros Hin. rewrite <- list_fmap_compose in Hin.
  apply (proj1 (list_elem_of_fmap _ _ _)) in Hin as (r & Heq & Hr).
  simpl in Heq. apply list_elem_of_In, filter_In in Hr as [Hr Hkeep].
  apply andb_true_iff in Hkeep as [_ Hkv].
  apply negb_true_iff, String.eqb_neq in Hkv. apply Hkv.
  apply list_elem_of_In, list_elem_of_lookup in Hr as [j Hj].
  apply lookup_take_Some in Hj as [Hj Hlt]. by eapply Hfirst.
Qed.

Lemma ex_dedup_frame_wf : frame_wf ex_dedup_frame.
Proof.
  split.
  - intros _. apply (bool_decide_unpack _). by vm_compute.
  - repeat constructor.
Qed.

Lemma first_kept_row_wins_witness :
  (<["C1" := "def1"]> (<["C2" := "def3"]> ∅) : gmap string string) !! "C1"
  = Some "def1".
Proof.
  pose proof (first_kept_row_wins ex_dedup_frame
                (<["C1" := "def1"]> (<["C2" := "def3"]> ∅)) "CUI" "DEF"
                ex_dedup_frame_wf eq_refl eq_refl eq_refl) as [H _].
  apply (H 0%nat [Str "C1"; Str "def1"] eq_refl).
  - by vm_compute.
  - by vm_compute.
  - intros j row' Hj. lia.
Defined.

(** ** Required columns of the definitions file *)

Lemma ci_match_cui c : ci_match c "CUI" <-> Py.lower c = "cui".
Proof. reflexivity. Qed.

Lemma ci_match_def c : ci_match c "DEF" <-> Py.lower c = "def".
Proof. reflexivity. Qed.

Lemma mgdef_missing_columns df found :
  mgdef_map_of_frame df = Err (MissingColumns found) <->
  found = columns df
  /\ (~ (exists c, c ∈ columns df /\ ci_match c "CUI")
      \/ ~ (exists c, c ∈ columns df /\ ci_match c "DEF")).
Proof.
  setoid_rewrite ci_match_cui. setoid_rewrite ci_match_def.
  rewrite <- !lower_colmap_is_Some. unfold mgdef_map_of_frame.
  destruct (lower_colmap (columns df) !! "cui") as [a|] eqn:Ea;
    destruct (lower_colmap (columns df) !! "def") as [b|] eqn:Eb.
  - split; [discriminate|]. intros [_ [H | H]]; destruct H; eauto.
  - split.
    + intros [= <-]. split; [done|]. right. by intros [? ?].
    + by intros [-> _].
  - split.
    + intros [= <-]. split; [done|]. left. by intros [? ?].
    + by intros [-> _].
  - split.
    + intros [= <-]. split; [done|]. left. by intros [? ?].
    + by intros [-> _].
Qed.

(** C8.  [read_mgdef_map] fails with MissingColumns exactly when the file
    exists, has a header line, [read_csv] returns a frame, and no column
    of the frame matches CUI or none matches DEF, case-insensitively; the
    error carries the columns that were found. *)
Theorem missing_columns_iff (fs : gmap string (list string))
    (read_csv : string -> string -> option (list string) -> csv_result)
    (mgdef_path : string) (found : list string) :
  read_mgdef_map fs read_csv mgdef_path = Err (MissingColumns found) <->
  exists lines l df,
    fs !! mgdef_path = Some lines
    /\ lines !! header_index lines = Some l
    /\ read_csv (Py.join NL (drop (header_index lines) lines))
         (detect_delim_from_header (Py.strip l)) None = CsvOk df
    /\ found = columns df
    /\ (~ (exists c, c ∈ columns df /\ ci_match c "CUI")
        \/ ~ (exists c, c ∈ columns df /\ ci_match c "DEF")).
Proof.
  unfold read_mgdef_map.
  destruct (fs !! mgdef_path) as [lines|] eqn:Efs.
  2:{ split; [discriminate | by intros (? & ? & ? & ? & _)]. }
  destruct (lines !! header_index lines) as [l|] eqn:El.
  2:{ split; [discriminate|]. intros (? & ? & ? & [= <-] & H & _).
      rewrite El in H. discriminate. }
  destruct (read_csv _ _ None) as [df|msg] eqn:Ecsv;
    unfold mbind, result_bind; simpl.
  - rewrite mgdef_missing_columns. split.
    + intros [-> H]. exists lines, l, df. by split_and!.
    + intros (? & ? & ? & [= <-] & Hl & Hcsv & -> & H).
      rewrite El in Hl. injection Hl as <-. rewrite Ecsv in Hcsv.
      by injection Hcsv as <-.
  - split; [discriminate|].
    intros (? & ? & ? & [= <-] & Hl & Hcsv & _).
    rewrite El in Hl. injection Hl as <-. rewrite Ecsv in Hcsv. discriminate.
Qed.

(** ** A comment marker in the header of the definitions file *)

Lemma header_index_app blanks l rest :
  Forall (fun x => Py.strip x = "") blanks -> Py.strip l <> "" ->
  header_index (blanks ++ l :: rest) = List.length blanks.
Proof.
  intros Hb Hl. induction Hb as [|b blanks Hb _ IH]; simpl.
  - apply String.eqb_neq in Hl. by rewrite Hl.
  - rewrite Hb. simpl. by rewrite IH.
Qed.

(** C10.  Only the mapping reader strips a leading '#': for a definitions
    file whose first non-blank line is "#CUI,DEF", parsed into the columns
    "#CUI" and "DEF", [read_mgdef_map] fails with MissingColumns, since
    "#CUI" does not match CUI; the mapping reader gets the columns "CUI"
    and "DEF" from the same header. *)
Theorem hash_header_not_stripped (fs : gmap string (list string))
    (read_csv : string -> string -> option (list string) -> csv_result)
    (mgdef_path : string) (blanks rest : list string) (df : frame cell) :
  fs !! mgdef_path = Some (blanks ++ "#CUI,DEF" :: rest)%list ->
  Forall (fun x => Py.strip x = "") blanks ->
  read_csv (Py.join NL ("#CUI,DEF" :: rest)) "," None = CsvOk df ->
  columns df = ["#CUI"; "DEF"] ->
  read_mgdef_map fs read_csv mgdef_path = Err (MissingColumns ["#CUI"; "DEF"])
  /\ ~ ci_match "#CUI" "CUI"
  /\ header_cols_of "#CUI,DEF" = ["CUI"; "DEF"].
Proof.
  intros Hfs Hb Hcsv Hcols. split_and!; [|discriminate|reflexivity].
  unfold read_mgdef_map. rewrite Hfs.
  rewrite (header_index_app blanks "#CUI,DEF" rest Hb) by discriminate.
  rewrite list_lookup_middle by done.
  rewrite drop_app_length.
  change (detect_delim_from_header (Py.strip "#CUI,DEF")) with ",".
  rewrite Hcsv. unfold mbind, result_bind; simpl.
  apply mgdef_missing_columns. split; [done|]. left.
  rewrite Hcols. intros (c & Hc & Hm).
  apply elem_of_cons in Hc as [-> | Hc]; [discriminate|].
  apply list_elem_of_singleton in Hc as ->. discriminate.
Qed.

Lemma hash_header_not_stripped_witness :
  read_mgdef_map ex_hash_fs plain_read_csv "MGDEF"
  = Err (MissingColumns ["#CUI"; "DEF"])
  /\ ~ ci_match "#CUI" "CUI"
  /\ header_cols_of "#CUI,DEF" = ["CUI"; "DEF"].
Proof.
  apply (hash_header_not_stripped ex_hash_fs plain_read_csv "MGDEF"
           [""] ["C1,def1"]
           (Frame ["#CUI"; "DEF"] [[Str "C1"; Str "def1"]])).
  - reflexivity.
  - by repeat constructor.
  - by vm_compute.
  - reflexivity.
Defined.

Example ex_hash_mapping :
  read_medgen_mapping ex_hash_fs plain_read_csv "MAPPING"
  = Ok (Frame ["CUI"; "DEF"] [["C1"; "def1"]]).
Proof. by vm_compute. Qed.

(** ** Rows that share a MIM number *)

(** A row that passes every test is appended. *)
Lemma loop_body_keep df m ss results row :
  all_blank row = false ->
  get df row "MIM_number" <> "" ->
  get df row "OMIM_CUI" <> "" ->
  ~ (get df row "OMIM_CUI") ∈ ss ->
  loop_body df m (ss, results) row
  = ({[get df row "OMIM_CUI"]} ∪ ss, (results ++ [make_entry df m row])%list).
Proof.
  intros Hb Hm Hc Hnew. unfold loop_body. rewrite Hb.
  apply truthy_true in Hm, Hc. rewrite Hm, Hc. simpl.
  by rewrite bool_decide_eq_false_2.
Qed.

Lemma strip_nonempty s : Py.strip s <> "" -> s <> "".
Proof. intros H ->. by apply H. Qed.

(** C9.  The join drops duplicates by OMIM CUI only: two rows with the
    same MIM number and distinct non-empty OMIM CUIs both yield a record,
    so the _id and omim_id values of the output repeat. *)
Theorem dedup_keyed_on_cui_only (m : gmap string string)
    (mim n1 n2 c1 c2 h1 h2 : string) :
  Py.strip mim <> "" -> c1 <> "" -> c2 <> "" -> c1 <> c2 ->
  let df := Frame ["MIM_number"; "OMIM_name"; "OMIM_CUI"; "HPO_CUI"]
              [ [mim; n1; c1; h1]; [mim; n2; c2; h2] ] in
  exists e1 e2,
    build_list_of_dicts df m = [e1; e2]
    /\ _id e1 = mim /\ _id e2 = mim
    /\ omim_id e1 = mim /\ omim_id e2 = mim
    /\ medgen_concept_id e1 = c1 /\ medgen_concept_id e2 = c2
    /\ ~ NoDup (_id <$> build_list_of_dicts df m).
Proof.
  intros Hs H1 H2 H12 df.
  assert (mim <> "") as Hmim by by apply strip_nonempty.
  assert (forall n c h, all_blank [mim; n; c; h] = false) as Hblank.
  { intros n c h. simpl. apply String.eqb_neq in Hs. by rewrite Hs. }
  assert (build_list_of_dicts df m
          = [make_entry df m [mim; n1; c1; h1];
             make_entry df m [mim; n2; c2; h2]]) as Hbuild.
  { unfold build_list_of_dicts, run_loop.
    change (foldl (loop_body df m) (∅, []) (rows df))
      with (loop_body df m (loop_body df m (∅, []) [mim; n1; c1; h1])
              [mim; n2; c2; h2]).
    rewrite (loop_body_keep df m ∅ [] [mim; n1; c1; h1]);
      [|done|done|done|set_solver].
    rewrite (loop_body_keep df m _ _ [mim; n2; c2; h2]);
      [done|done|done|done|].
    change (get df [mim; n1; c1; h1] "OMIM_CUI") with c1.
    change (get df [mim; n2; c2; h2] "OMIM_CUI") with c2.
    rewrite elem_of_union, elem_of_singleton, elem_of_empty. intros [? | []].
    by apply H12. }
  eexists _, _. split; [exact Hbuild|]. split_and!; try reflexivity.
  rewrite Hbuild. intros Hnd. simpl in Hnd.
  apply NoDup_cons in Hnd as [Hnotin _]. apply Hnotin. by left.
Qed.

Lemma dedup_keyed_on_cui_only_witness :
  exists e1 e2,
    build_list_of_dicts
      (Frame ["MIM_number"; "OMIM_name"; "OMIM_CUI"; "HPO_CUI"]
         [ ["100050"; "First"; "C001"; "H001"];
           ["100050"; "Second"; "C002"; ""] ]) ex_cui_def_map
    = [e1; e2]
    /\ _id e1 = "100050" /\ _id e2 = "100050"
    /\ omim_id e1 = "100050" /\ omim_id e2 = "100050"
    /\ medgen_concept_id e1 = "C001" /\ medgen_concept_id e2 = "C002"
    /\ ~ NoDup (_id <$> build_list_of_dicts
                  (Frame ["MIM_number"; "OMIM_name"; "OMIM_CUI"; "HPO_CUI"]
                     [ ["100050"; "First"; "C001"; "H001"];
                       ["100050"; "Second"; "C002"; ""] ]) ex_cui_def_map).
Proof.
  apply (dedup_keyed_on_cui_only ex_cui_def_map
           "100050" "First" "Second" "C001" "C002" "H001" "");
    by vm_compute.
Defined.

(** ** The examples as inputs of the lookup theorems *)

Lemma ex_cui_def_map_table : definition_table ex_cui_def_map.
Proof.
  apply (mgdef_definition_table ex_mgdef_frame).
  - apply ex_mgdef_frame_wf.
  - apply ex_mgdef_frame_map.
Qed.

Lemma ex_first_seen_0 : first_seen ex_mapping_df 0.
Proof.
  exists ["100050"; "Example Disease"; "C001"; "H001"].
  split_and!; try done.
  - split_and!; try by vm_compute.
    intros H. apply Forall_cons in H as [H _]. by vm_compute in H.
  - intros j row' Hj. lia.
Qed.

Lemma fallback_never_taken_witness :
  (forall row hpo,
      fallback_taken
        (Py.dict_get ex_cui_def_map (get ex_mapping_df row "OMIM_CUI") "NA")
        hpo = false)
  /\ (forall cui hpo hpo',
        lookup_info ex_cui_def_map cui hpo = lookup_info ex_cui_def_map cui hpo')
  /\ (forall e, e ∈ build_list_of_dicts ex_mapping_df ex_cui_def_map ->
        medgen_disease_info e
        = match ex_cui_def_map !! medgen_concept_id e with
          | Some d => d
          | None => "NA"
          end).
Proof.
  apply (fallback_never_taken ex_mapping_df ex_cui_def_map).
  - apply ex_mapping_df_wf.
  - apply ex_cui_def_map_table.
Defined.

Lemma ex_first_seen_4 : first_seen ex_mapping_df 4.
Proof.
  exists ["100050"; "Third"; "C009"; ""].
  split_and!; try done.
  - split_and!; try by vm_compute.
    intros H. apply Forall_cons in H as [H _]. by vm_compute in H.
  - intros j row' Hj Hrow' _.
    do 4 (destruct j as [|j]; [injection Hrow' as <-; by vm_compute|]). lia.
Qed.

Lemma info_is_definition_or_NA_witness :
  medgen_disease_info
    (make_entry ex_mapping_df ex_cui_def_map
       ["100050"; "Example Disease"; "C001"; "H001"]) = "def1"
  /\ medgen_disease_info
       (make_entry ex_mapping_df ex_cui_def_map
          ["100050"; "Third"; "C009"; ""]) = "NA".
Proof.
  pose proof (info_is_definition_or_NA ex_mapping_df ex_cui_def_map
                ex_mapping_df_wf 0%nat
                ["100050"; "Example Disease"; "C001"; "H001"]
                eq_refl ex_first_seen_0) as (_ & _ & _ & H0).
  pose proof (info_is_definition_or_NA ex_mapping_df ex_cui_def_map
                ex_mapping_df_wf 4%nat
                ["100050"; "Third"; "C009"; ""]
                eq_refl ex_first_seen_4) as (_ & _ & H4 & _).
  split.
  - apply (H0 ex_cui_def_map_table). by vm_compute.
  - apply H4. by vm_compute.
Defined.

(** ** The end-to-end scenario of the specification *)

Example ex_end_to_end :
  main_results
    (<["MGDEF.csv.gz" := ["CUI,DEF"; "C001,Some disease"]]>
       (<["MedGen_HPO_OMIM_Mapping.txt.gz" :=
            ["#MIM_number,OMIM_name,OMIM_CUI,HPO_CUI";
             "100050,Example Disease,C001,H001"]]> ∅))
    plain_read_csv "MGDEF.csv.gz" "MedGen_HPO_OMIM_Mapping.txt.gz"
  = Ok [Entry "100050" "100050" "Example Disease" "C001" "Some disease"].
Proof. by vm_compute. Qed.

(** * Further properties of the readers and of the join *)

(** ** The header search *)

Lemma header_index_app_blank blanks lines :
  Forall blank blanks ->
  header_index (blanks ++ lines) = (List.length blanks + header_index lines)%nat.
Proof.
  intros Hb. induction Hb as [|b blanks Hb _ IH]; simpl; [done|].
  unfold blank in Hb. rewrite Hb. simpl. by rewrite IH.
Qed.

Lemma header_index_take lines :
  Forall blank (take (header_index lines) lines).
Proof.
  induction lines as [|l lines IH]; simpl; [constructor|].
  destruct (String.eqb_spec (Py.strip l) "") as [E | E]; simpl.
  - by constructor.
  - constructor.
Qed.

Lemma header_index_lookup lines l :
  lines !! header_index lines = Some l -> ~ blank l.
Proof.
  induction lines as [|x lines IH]; simpl; [done|].
  destruct (String.eqb_spec (Py.strip x) "") as [E | E]; simpl.
  - apply IH.
  - by intros [= <-].
Qed.

Lemma header_index_none lines :
  lines !! header_index lines = None <-> Forall blank lines.
Proof.
  induction lines as [|x lines IH]; simpl.
  - split; [constructor | done].
  - destruct (String.eqb_spec (Py.strip x) "") as [E | E]; simpl.
    + rewrite IH. split; [by constructor | by intros [_ ?]%Forall_cons].
    + split; [done | by intros [? _]%Forall_cons].
Qed.

(** X1.  The header both readers pick is the first line that is not blank:
    every line before it is blank, it is not blank itself, and there is no
    header exactly when every line of the file is blank. *)
Theorem header_is_first_nonblank (lines : list string) :
  Forall blank (take (header_index lines) lines)
  /\ (forall l, lines !! header_index lines = Some l -> ~ blank l)
  /\ (lines !! header_index lines = None <-> Forall blank lines).
Proof.
  split_and!.
  - apply header_index_take.
  - apply header_index_lookup.
  - apply header_index_none.
Qed.

(** ** Failures of the readers *)

Lemma mgdef_map_of_frame_Err df e :
  mgdef_map_of_frame df = Err e -> e = MissingColumns (columns df).
Proof.
  unfold mgdef_map_of_frame.
  destruct (lower_colmap (columns df) !! "cui");
    destruct (lower_colmap (columns df) !! "def"); by intros [= <-].
Qed.

(** X2.  [read_mgdef_map] raises FileNotFoundError exactly when the path
    does not exist, and then for that path; it raises the "appears empty"
    error exactly when the file exists and all its lines are blank. *)
Theorem read_mgdef_map_input_errors (fs : gmap string (list string))
    (read_csv : string -> string -> option (list string) -> csv_result)
    (mgdef_path : string) :
  (forall q, read_mgdef_map fs read_csv mgdef_path = Err (FileNotFound q)
             <-> fs !! mgdef_path = None /\ q = mgdef_path)
  /\ (read_mgdef_map fs read_csv mgdef_path = Err EmptyInput
      <-> exists lines, fs !! mgdef_path = Some lines /\ Forall blank lines).
Proof.
  unfold read_mgdef_map.
  destruct (fs !! mgdef_path) as [lines|] eqn:Efs.
  2:{ split.
      - intros q. split; [by intros [= <-] | by intros [_ ->]].
      - split; [discriminate | by intros (? & ? & _)]. }
  destruct (lines !! header_index lines) as [l|] eqn:El.
  2:{ split.
      - intros q. split; [discriminate | by intros [? _]].
      - split; [|done]. intros _. exists lines. split; [done|].
        by apply header_index_none. }
  assert (~ Forall blank lines) as Hnb.
  { rewrite <- header_index_none, El. discriminate. }
  destruct (read_csv _ _ None) as [df|msg]; unfold mbind, result_bind; simpl.
  - split.
    + intros q. split; [|by intros [? _]].
      intros H. apply mgdef_map_of_frame_Err in H. discriminate.
    + split.
      * intros H. apply mgdef_map_of_frame_Err in H. discriminate.
      * intros (? & [= <-] & ?). done.
  - split.
    + intros q. split; [discriminate | by intros [? _]].
    + split; [discriminate|]. intros (? & [= <-] & ?). done.
Qed.

(** X3.  [read_medgen_mapping] raises FileNotFoundError exactly when the
    path does not exist, the "appears empty" error exactly when the file
    exists and all its lines are blank, and never the missing-columns
    error: the mapping file is not checked for its columns. *)
Theorem read_medgen_mapping_input_errors (fs : gmap string (list string))
    (read_csv : string -> string -> option (list string) -> csv_result)
    (mapping_path : string) :
  (forall q, read_medgen_mapping fs read_csv mapping_path = Err (FileNotFound q)
             <-> fs !! mapping_path = None /\ q = mapping_path)
  /\ (read_medgen_mapping fs read_csv mapping_path = Err EmptyInput
      <-> exists lines, fs !! mapping_path = Some lines /\ Forall blank lines)
  /\ (forall found,
        read_medgen_mapping fs read_csv mapping_path
        <> Err (MissingColumns found)).
Proof.
  unfold read_medgen_mapping.
  destruct (fs !! mapping_path) as [lines|] eqn:Efs.
  2:{ split_and!.
      - intros q. split; [by intros [= <-] | by intros [_ ->]].
      - split; [discriminate | by intros (? & ? & _)].
      - discriminate. }
  destruct (lines !! header_index lines) as [l|] eqn:El.
  2:{ split_and!.
      - intros q. split; [discriminate | by intros [? _]].
      - split; [|done]. intros _. exists lines. split; [done|].
        by apply header_index_none.
      - discriminate. }
  assert (~ Forall blank lines) as Hnb.
  { rewrite <- header_index_none, El. discriminate. }
  destruct (String.eqb _ "").
  { split_and!.
    - intros q. split; [discriminate | by intros [? _]].
    - split; [discriminate|]. intros (? & [= <-] & ?). done.
    - discriminate. }
  destruct (read_csv _ _ (Some _)) as [df|msg]; unfold mbind, result_bind; simpl.
  - split_and!.
    + intros q. split; [discriminate | by intros [? _]].
    + split; [discriminate|]. intros (? & [= <-] & ?). done.
    + discriminate.
  - split_and!.
    + intros q. split; [discriminate | by intros [? _]].
    + split; [discriminate|]. intros (? & [= <-] & ?). done.
    + discriminate.
Qed.

(** X4.  Blank lines before the header make no difference to either
    reader: a file and the same file without its leading blank lines give
    the same result. *)
Theorem leading_blank_lines_ignored (fs fs' : gmap string (list string))
    (read_csv : string -> string -> option (list string) -> csv_result)
    (path : string) (blanks lines : list string) :
  fs !! path = Some (blanks ++ lines)%list ->
  fs' !! path = Some lines ->
  Forall blank blanks ->
  read_mgdef_map fs read_csv path = read_mgdef_map fs' read_csv path
  /\ read_medgen_mapping fs read_csv path
     = read_medgen_mapping fs' read_csv path.
Proof.
  intros Hfs Hfs' Hb.
  unfold read_mgdef_map, read_medgen_mapping. rewrite Hfs, Hfs'.
  rewrite (header_index_app_blank blanks lines Hb).
  rewrite lookup_app_r by lia.
  replace (List.length blanks + header_index lines - List.length blanks)%nat
    with (header_index lines) by lia.
  replace (S (List.length blanks + header_index lines))
    with (List.length blanks + S (header_index lines))%nat by lia.
  by rewrite !drop_app_add'.
Qed.

Lemma leading_blank_lines_ignored_witness :
  read_mgdef_map (<["f" := [""; "  "; "CUI,DEF"; "C1,d"]]> ∅) plain_read_csv "f"
  = read_mgdef_map (<["f" := ["CUI,DEF"; "C1,d"]]> ∅) plain_read_csv "f"
  /\ read_medgen_mapping (<["f" := [""; "  "; "CUI,DEF"; "C1,d"]]> ∅)
       plain_read_csv "f"
     = read_medgen_mapping (<["f" := ["CUI,DEF"; "C1,d"]]> ∅)
         plain_read_csv "f".
Proof.
  apply (leading_blank_lines_ignored _ _ plain_read_csv "f"
           [""; "  "] ["CUI,DEF"; "C1,d"]).
  - reflexivity.
  - reflexivity.
  - by repeat constructor.
Defined.

(** ** Columns the join cannot find *)

Lemma get_missing df row name :
  ~ (exists c, c ∈ columns df /\ ci_match c name) -> get df row name = "".
Proof.
  intros Hno. unfold get, colmap.
  destruct (lower_colmap (columns df) !! Py.lower name) as [c|] eqn:E; [|done].
  exfalso. apply Hno. exists c. by apply lower_colmap_Some.
Qed.

(** X5.  A mapping table without a MIM_number column, or without an
    OMIM_CUI column (in any letter case), gives an empty output rather than
    an error: the missing field reads as the empty string and every row is
    skipped. *)
Theorem missing_key_column_empty_output (df : frame string)
    (m : gmap string string) :
  frame_wf df ->
  ~ (exists c, c ∈ columns df /\ ci_match c "MIM_number")
  \/ ~ (exists c, c ∈ columns df /\ ci_match c "OMIM_CUI") ->
  build_list_of_dicts df m = [].
Proof.
  intros _ Hno. apply elem_of_nil_inv. intros e He.
  apply build_elem in He as (i & (row & _ & (_ & Hm & Hc) & _) & _).
  destruct Hno as [Hno | Hno].
  - by apply Hm, get_missing.
  - by apply Hc, get_missing.
Qed.

Lemma missing_key_column_empty_output_witness :
  build_list_of_dicts
    (Frame ["MIM_number"; "OMIM_name"] [["100050"; "Example Disease"]])
    ex_cui_def_map = [].
Proof.
  apply (missing_key_column_empty_output
           (Frame ["MIM_number"; "OMIM_name"] [["100050"; "Example Disease"]])
           ex_cui_def_map).
  - split; [intros _; apply (bool_decide_unpack _); by vm_compute|].
    by repeat constructor.
  - right. intros (c & Hc & Hm).
    apply elem_of_cons in Hc as [-> | Hc]; [discriminate|].
    apply list_elem_of_singleton in Hc as ->. discriminate.
Defined.

(** ** The fields of the output records *)

Lemma dict_get_NA_or_value (m : gmap string string) k :
  Py.dict_get m k "NA" = "NA" \/ exists k', m !! k' = Some (Py.dict_get m k "NA").
Proof.
  unfold Py.dict_get. destruct (m !! k) eqn:E; [right; eauto | by left].
Qed.

Lemma lookup_info_NA_or_value (m : gmap string string) cui hpo :
  lookup_info m cui hpo = "NA"
  \/ exists k, m !! k = Some (lookup_info m cui hpo).
Proof.
  unfold lookup_info. destruct (fallback_taken _ _); apply dict_get_NA_or_value.
Qed.

(** X6.  In every output record _id and omim_id are the same non-empty
    string, medgen_concept_id is non-empty, and medgen_disease_info is
    "NA" or a definition stored in the dict; with a definition table it is
    never empty. *)
Theorem output_record_fields (df : frame string) (m : gmap string string)
    (e : entry) :
  frame_wf df ->
  e ∈ build_list_of_dicts df m ->
  _id e = omim_id e
  /\ _id e <> ""
  /\ medgen_concept_id e <> ""
  /\ (medgen_disease_info e = "NA"
      \/ exists k, m !! k = Some (medgen_disease_info e))
  /\ (definition_table m -> medgen_disease_info e <> "").
Proof.
  intros _ He.
  apply build_elem in He as (i & (row & Hrow & (_ & Hm & Hc) & _) & ->).
  rewrite (entry_of_row_lookup df m i row Hrow).
  split_and!; try done.
  - apply lookup_info_NA_or_value.
  - intros Ht. rewrite info_make_entry.
    destruct (lookup_info_NA_or_value m (get df row "OMIM_CUI")
                (get df row "HPO_CUI")) as [-> | [k Hk]]; [discriminate|].
    by apply Ht in Hk as (_ & ? & _).
Qed.

Lemma ex_build_elem_0 :
  Entry "100050" "100050" "Example Disease" "C001" "def1"
  ∈ build_list_of_dicts ex_mapping_df ex_cui_def_map.
Proof. rewrite ex_build. by left. Qed.

Lemma output_record_fields_witness :
  let e := Entry "100050" "100050" "Example Disease" "C001" "def1" in
  _id e = omim_id e
  /\ _id e <> ""
  /\ medgen_concept_id e <> ""
  /\ (medgen_disease_info e = "NA"
      \/ exists k, ex_cui_def_map !! k = Some (medgen_disease_info e))
  /\ (definition_table ex_cui_def_map -> medgen_disease_info e <> "").
Proof.
  apply (output_record_fields ex_mapping_df ex_cui_def_map).
  - apply ex_mapping_df_wf.
  - apply ex_build_elem_0.
Defined.

(** ** What the definition table can change *)

Section TwoTables.

Variable df : frame string.
Variables m m' : gmap string string.

Lemma loop_body_two_tables st st' row :
  st.1 = st'.1 -> without_info <$> st.2 = without_info <$> st'.2 ->
  (loop_body df m st row).1 = (loop_body df m' st' row).1
  /\ without_info <$> (loop_body df m st row).2
     = without_info <$> (loop_body df m' st' row).2.
Proof.
  destruct st as [ss res], st' as [ss' res']. intros Hss Hres.
  simpl in Hss, Hres. subst ss'.
  destruct (loop_body_cases df m ss res row)
    as [[Hq ->] | [(Hq & Hs & ->) | (Hq & Hs & ->)]];
  destruct (loop_body_cases df m' ss res' row)
    as [[Hq' ->] | [(Hq' & Hs' & ->) | (Hq' & Hs' & ->)]];
  try done.
  simpl. split; [done|]. rewrite !fmap_app. by rewrite Hres.
Qed.

Lemma foldl_two_tables rs st st' :
  st.1 = st'.1 -> without_info <$> st.2 = without_info <$> st'.2 ->
  (foldl (loop_body df m) st rs).1 = (foldl (loop_body df m') st' rs).1
  /\ without_info <$> (foldl (loop_body df m) st rs).2
     = without_info <$> (foldl (loop_body df m') st' rs).2.
Proof.
  revert st st'. induction rs as [|r rs IH]; intros st st' H1 H2; simpl.
  - done.
  - destruct (loop_body_two_tables st st' r H1 H2) as [? ?]. by apply IH.
Qed.

End TwoTables.

(** X7.  The definition table decides nothing but medgen_disease_info:
    with two different tables the join keeps the same rows, in the same
    order, with the same _id, omim_id, omim_disease and
    medgen_concept_id. *)
Theorem table_changes_info_only (df : frame string)
    (m m' : gmap string string) :
  frame_wf df ->
  without_info <$> build_list_of_dicts df m
  = without_info <$> build_list_of_dicts df m'.
Proof.
  intros _. unfold build_list_of_dicts, run_loop.
  by apply foldl_two_tables.
Qed.

Lemma table_changes_info_only_witness :
  without_info <$> build_list_of_dicts ex_mapping_df ex_cui_def_map
  = without_info <$> build_list_of_dicts ex_mapping_df ∅.
Proof.
  apply (table_changes_info_only ex_mapping_df ex_cui_def_map ∅).
  apply ex_mapping_df_wf.
Defined.

(** ** Rows added at the end *)

Lemma loop_body_same_columns df df' m st row :
  columns df = columns df' -> loop_body df m st row = loop_body df' m st row.
Proof.
  intros H. destruct st as [ss res].
  unfold loop_body, make_entry, get, colmap. by rewrite H.
Qed.

Lemma foldl_same_columns df df' m rs st :
  columns df = columns df' ->
  foldl (loop_body df m) st rs = foldl (loop_body df' m) st rs.
Proof.
  intros H. revert st. induction rs as [|r rs IH]; intros st; simpl; [done|].
  by rewrite (loop_body_same_columns df df' m st r H), IH.
Qed.

Lemma foldl_results_extend df m rs st :
  exists tail,
    (foldl (loop_body df m) st rs).2 = (st.2 ++ tail)%list
    /\ (List.length tail <= List.length rs)%nat.
Proof.
  revert st. induction rs as [|r rs IH]; intros st; simpl.
  - exists []. by rewrite app_nil_r.
  - destruct (IH (loop_body df m st r)) as (tail & -> & Hlen).
    destruct st as [ss res].
    destruct (loop_body_cases df m ss res r)
      as [[_ ->] | [(_ & _ & ->) | (_ & _ & ->)]]; simpl.
    + exists tail. split; [done | lia].
    + exists tail. split; [done | lia].
    + exists (make_entry df m r :: tail). rewrite <- app_assoc.
      split; [done | simpl; lia].
Qed.

(** X8.  Rows added at the end of the mapping table only append records:
    the output for the longer table starts with the whole output for the
    shorter one, and gains at most one record per added row; so the output
    never has more records than the table has rows. *)
Theorem later_rows_only_append (cols : list string)
    (rs rs' : list (list string)) (m : gmap string string) :
  frame_wf (Frame cols (rs ++ rs')) ->
  (exists tail,
      build_list_of_dicts (Frame cols (rs ++ rs')) m
      = (build_list_of_dicts (Frame cols rs) m ++ tail)%list
      /\ (List.length tail <= List.length rs')%nat)
  /\ (List.length (build_list_of_dicts (Frame cols (rs ++ rs')) m)
      <= List.length (rs ++ rs'))%nat.
Proof.
  intros _. split.
  - unfold build_list_of_dicts, run_loop. cbn [rows]. rewrite foldl_app.
    rewrite (foldl_same_columns (Frame cols (rs ++ rs')) (Frame cols rs) m rs)
      by done.
    rewrite (foldl_same_columns (Frame cols (rs ++ rs')) (Frame cols rs) m rs')
      by done.
    apply foldl_results_extend.
  - unfold build_list_of_dicts, run_loop. cbn [rows].
    destruct (foldl_results_extend (Frame cols (rs ++ rs')) m (rs ++ rs') (∅, []))
      as (tail & -> & Hlen). done.
Qed.

Lemma later_rows_only_append_witness :
  (exists tail,
      build_list_of_dicts ex_mapping_df ex_cui_def_map
      = (build_list_of_dicts
           (Frame (columns ex_mapping_df) (take 2 (rows ex_mapping_df)))
           ex_cui_def_map ++ tail)%list
      /\ (List.length tail <= 3)%nat)
  /\ (List.length (build_list_of_dicts ex_mapping_df ex_cui_def_map) <= 5)%nat.
Proof.
  apply (later_rows_only_append (columns ex_mapping_df)
           (take 2 (rows ex_mapping_df)) (drop 2 (rows ex_mapping_df))
           ex_cui_def_map).
  apply ex_mapping_df_wf.
Defined.

(** ** Blank text *)

Section BlankFacts.

Variable p : ascii -> bool.

(** Every character of [s] satisfies [p]. *)
Lemma lstrip_by_empty s :
  Py.lstrip_by p s = "" <-> Forall (fun c => p c = true) (list_ascii_of_string s).
Proof.
  induction s as [|c s IH]; simpl.
  - split; [constructor | done].
  - destruct (p c) eqn:E.
    + rewrite IH. split; [by constructor | by intros [_ ?]%Forall_cons].
    + split; [done|]. intros [? _]%Forall_cons. congruence.
Qed.

Lemma list_ascii_of_string_app s t :
  list_ascii_of_string (s ++ t)
  = (list_ascii_of_string s ++ list_ascii_of_string t)%list.
Proof. induction s as [|c s IH]; simpl; [done | by rewrite IH]. Qed.

End BlankFacts.

Lemma blank_iff s :
  blank s <-> Forall (fun c => Py.isspace c = true) (list_ascii_of_string s).
Proof.
  rewrite <- lstrip_by_empty. unfold blank, Py.strip.
  destruct (lstrip_by_head Py.isspace s) as [-> | (c & t & -> & Hc)]; [done|].
  destruct (rstrip_by_head Py.isspace c t Hc) as [u ->]. done.
Qed.

Lemma blank_app s t : blank s -> blank t -> blank (s ++ t).
Proof.
  rewrite !blank_iff, list_ascii_of_string_app. apply Forall_app_2.
Qed.

Lemma blank_join ls : Forall blank ls -> blank (Py.join NL ls).
Proof.
  induction 1 as [|l ls Hl Hls IH]; [done|].
  destruct ls as [|l' ls]; [done|].
  change (Py.join NL (l :: l' :: ls)) with (l ++ NL ++ Py.join NL (l' :: ls)).
  apply blank_app; [done|]. apply blank_app; [done | exact IH].
Qed.

(** ** The mapping reader *)

(** X9.  A mapping file with nothing but blank lines after its header
    gives a table with the header's column names and no rows, and
    [read_csv] is not consulted: the result is the same for every
    reader. *)
Theorem header_only_mapping (fs : gmap string (list string))
    (read_csv : string -> string -> option (list string) -> csv_result)
    (mapping_path : string) (lines : list string) (l : string) :
  fs !! mapping_path = Some lines ->
  lines !! header_index lines = Some l ->
  Forall blank (drop (S (header_index lines)) lines) ->
  read_medgen_mapping fs read_csv mapping_path
  = Ok (Frame (header_cols_of (Py.strip l)) []).
Proof.
  intros Hfs Hl Hrest. unfold read_medgen_mapping. rewrite Hfs, Hl.
  apply blank_join in Hrest. unfold blank in Hrest. by rewrite Hrest.
Qed.

Lemma header_only_mapping_witness :
  read_medgen_mapping
    (<["m" := [""; "#MIM_number|OMIM_name|OMIM_CUI|HPO_CUI"; ""; "  "]]> ∅)
    plain_read_csv "m"
  = Ok (Frame ["MIM_number"; "OMIM_name"; "OMIM_CUI"; "HPO_CUI"] []).
Proof.
  apply (header_only_mapping _ plain_read_csv "m"
           [""; "#MIM_number|OMIM_name|OMIM_CUI|HPO_CUI"; ""; "  "]
           "#MIM_number|OMIM_name|OMIM_CUI|HPO_CUI").
  - reflexivity.
  - reflexivity.
  - by repeat constructor.
Defined.

Lemma nth_elem_or_default {A} (l : list A) i d :
  nth i l d ∈ l \/ nth i l d = d.
Proof.
  rewrite nth_lookup. destruct (l !! i) as [x|] eqn:E; simpl; [|by right].
  left. apply list_elem_of_lookup. eauto.
Qed.

(** A field read by [get] is a cell of the row or the empty string. *)
Lemma get_elem_or_empty df row name :
  get df row name ∈ row \/ get df row name = "".
Proof.
  unfold get. destruct (colmap df !! Py.lower name); [|by right].
  unfold row_at. destruct (col_index _ _); [|by right].
  apply nth_elem_or_default.
Qed.

Lemma plain_row_length sep n line r :
  plain_row sep n line = Some r -> List.length r = n.
Proof.
  unfold plain_row. destruct (_ <=? n)%nat eqn:E; [|done].
  intros [= <-]. apply Nat.leb_le in E.
  rewrite length_app, length_replicate. lia.
Qed.

Lemma plain_frame_rows sep cols lines df :
  plain_frame sep cols lines = CsvOk df ->
  columns df = cols
  /\ Forall (fun r => List.length r = List.length cols) (rows df).
Proof.
  unfold plain_frame. destruct (mapM _ lines) as [rs|] eqn:E; [|done].
  intros [= <-]. split; [done|]. simpl.
  apply mapM_Some in E. induction E as [|line r ls rs Hr _ IH]; constructor.
  - by apply plain_row_length in Hr.
  - exact IH.
Qed.

Lemma checked_read_csv_wf text sep names df :
  checked_read_csv text sep names = CsvOk df -> frame_wf df.
Proof.
  unfold checked_read_csv.
  destruct (plain_read_csv text sep names) as [d|] eqn:E; [|done].
  case_bool_decide as Hnd; [|done]. intros [= <-]. split; [done|].
  unfold plain_read_csv in E. destruct names as [cols|].
  - apply plain_frame_rows in E as [-> ?]. done.
  - destruct (List.filter _ _) as [|h ls]; [done|].
    apply plain_frame_rows in E as [-> ?]. done.
Qed.

Lemma read_medgen_mapping_rows_trimmed fs read_csv mapping_path df :
  read_medgen_mapping fs read_csv mapping_path = Ok df ->
  Forall (Forall (fun x => Py.strip x = x)) (rows df).
Proof.
  unfold read_medgen_mapping.
  destruct (fs !! mapping_path) as [lines|]; [|done].
  destruct (lines !! header_index lines) as [l|]; [|done].
  destruct (String.eqb _ ""); [intros [= <-]; constructor|].
  destruct (read_csv _ _ (Some _)) as [raw|msg];
    unfold mbind, result_bind; simpl; [|done].
  intros [= <-]. simpl. apply Forall_forall. intros r Hr.
  apply (proj1 (list_elem_of_fmap _ _ _)) in Hr as (r0 & -> & _).
  apply Forall_forall. intros x Hx.
  apply (proj1 (list_elem_of_fmap _ _ _)) in Hx as (x0 & -> & _).
  apply strip_idemp.
Qed.

(** X10.  Every cell of a table returned by [read_medgen_mapping] is
    trimmed, a missing field included (it becomes the empty string); and
    when [read_csv] returns well-formed frames the table is well formed. *)
Theorem mapping_cells_trimmed (fs : gmap string (list string))
    (read_csv : string -> string -> option (list string) -> csv_result)
    (mapping_path : string) (df : frame string) :
  read_medgen_mapping fs read_csv mapping_path = Ok df ->
  Forall (Forall (fun x => Py.strip x = x)) (rows df)
  /\ ((forall text sep names raw,
          read_csv text sep names = CsvOk raw -> frame_wf raw) ->
      frame_wf df).
Proof.
  intros Hread. split; [by eapply read_medgen_mapping_rows_trimmed|].
  revert Hread. unfold read_medgen_mapping.
  destruct (fs !! mapping_path) as [lines|]; [|done].
  destruct (lines !! header_index lines) as [l|]; [|done].
  destruct (String.eqb _ "").
  { intros [= <-]. intros _. split; [done | constructor]. }
  destruct (read_csv _ _ (Some _)) as [raw|msg] eqn:E;
    unfold mbind, result_bind; simpl; [|done].
  intros [= <-].
  - intros Hwf. destruct (Hwf _ _ _ _ E) as [Hnd Hlen]. split; simpl.
    + intros Hne. apply Hnd. intros Hnil. apply Hne. by rewrite Hnil.
    + apply Forall_forall. intros r Hr.
      apply (proj1 (list_elem_of_fmap _ _ _)) in Hr as (r0 & -> & Hr0).
      rewrite Forall_forall in Hlen. rewrite length_map. by apply Hlen.
Qed.

Lemma mapping_cells_trimmed_witness :
  Forall (Forall (fun x => Py.strip x = x))
    [["100050"; "Example Disease"; "C001"; ""]]
  /\ frame_wf (Frame ["MIM_number"; "OMIM_name"; "OMIM_CUI"; "HPO_CUI"]
                 [["100050"; "Example Disease"; "C001"; ""]]).
Proof.
  destruct (mapping_cells_trimmed
              (<["m" := ["#MIM_number,OMIM_name, OMIM_CUI ,HPO_CUI";
                         " 100050 ,Example Disease , C001"]]> ∅)
              checked_read_csv "m"
              (Frame ["MIM_number"; "OMIM_name"; "OMIM_CUI"; "HPO_CUI"]
                 [["100050"; "Example Disease"; "C001"; ""]]))
    as [H1 H2]; [by vm_compute|].
  split; [exact H1|]. apply H2. apply checked_read_csv_wf.
Defined.

(** ** The comment marker of the mapping header *)

Lemma startswith_hash_false h :
  Py.startswith h "#" = false ->
  h = "" \/ exists c t, h = String c t /\ c <> "#"%char.
Proof.
  intros H. destruct h as [|c t]; [by left|].
  right. exists c, t. split; [done|].
  intros ->. unfold Py.startswith in H. simpl in H. by destruct t.
Qed.

Lemma lstrip_hashes marks h :
  (forall c, occurs c marks -> c = "#"%char) ->
  Py.startswith h "#" = false ->
  Py.lstrip_chars "#" (marks ++ h) = h.
Proof.
  intros Hmarks Hh. unfold Py.lstrip_chars.
  induction marks as [|c marks IH]; simpl.
  - destruct (startswith_hash_false h Hh) as [-> | (c & t & -> & Hc)]; [done|].
    simpl. apply Ascii.eqb_neq in Hc. by rewrite Hc.
  - rewrite (Hmarks c) by by left. simpl. apply IH.
    intros d Hd. apply Hmarks. by right.
Qed.

(** X11.  When the header of the mapping file starts with one or more '#',
    the cleaned header is the text after them, trimmed, and the column
    names are its delimited fields, each trimmed. *)
Theorem marker_is_stripped (marks h : string) :
  marks <> "" ->
  (forall c, occurs c marks -> c = "#"%char) ->
  Py.startswith h "#" = false ->
  header_clean_of (marks ++ h) = Py.strip h
  /\ header_cols_of (marks ++ h)
     = map Py.strip
         (Py.split (Py.strip h) (detect_delim_from_header (Py.strip h))).
Proof.
  intros Hne Hmarks Hh.
  assert (header_clean_of (marks ++ h) = Py.strip h) as Hclean.
  { unfold header_clean_of.
    destruct marks as [|c marks]; [done|].
    assert (c = "#"%char) as -> by (apply Hmarks; by left).
    replace (Py.startswith (String "#" marks ++ h) "#") with true
      by (unfold Py.startswith; simpl; by destruct (marks ++ h)).
    by rewrite lstrip_hashes. }
  split; [done|]. unfold header_cols_of. by rewrite Hclean.
Qed.

Lemma marker_is_stripped_witness :
  header_clean_of "## MIM_number|OMIM_CUI " = "MIM_number|OMIM_CUI"
  /\ header_cols_of "## MIM_number|OMIM_CUI " = ["MIM_number"; "OMIM_CUI"].
Proof.
  apply (marker_is_stripped "##" " MIM_number|OMIM_CUI ").
  - discriminate.
  - intros c Hc. unfold occurs in Hc. simpl in Hc. intuition.
  - reflexivity.
Defined.

(** ** The keys of the definition table *)

(** X12.  A CUI is a key of the dict built by [read_mgdef_map] exactly when
    it is non-empty and some row of the file has it, trimmed, with a DEF
    that is not blank: no CUI that has a definition is lost. *)
Theorem mgdef_keys (df : frame cell) (m : gmap string string) :
  frame_wf df -> mgdef_map_of_frame df = Ok m ->
  exists col_cui col_def,
    lower_colmap (columns df) !! "cui" = Some col_cui
    /\ lower_colmap (columns df) !! "def" = Some col_def
    /\ forall k, is_Some (m !! k) <->
         k <> "" /\ exists row, row ∈ rows df
           /\ trimmed_at df col_cui row = k
           /\ trimmed_at df col_def row <> "".
Proof.
  intros Hwf Hm.
  destruct (mgdef_entries df m Hwf Hm) as (cc & cd & Hc & Hd & -> & Hrows).
  exists cc, cd. split_and!; try done. intros k. split.
  - intros [v Hv]. destruct (Hrows k v Hv) as (row & Hr & Hk & Hdv & Hk' & Hv').
    split; [done|]. exists row. split_and!; try done. congruence.
  - intros (Hk & row & Hr & Hrk & Hrv).
    destruct (list_to_map (kept_pairs df cc cd) !! k) as [v|] eqn:E; [done|].
    exfalso. apply not_elem_of_list_to_map_2 in E. apply E.
    apply list_elem_of_fmap. exists (k, trimmed_at df cd row). split; [done|].
    apply kept_pairs_elem. exists row. by split_and!.
Qed.

Lemma mgdef_keys_witness :
  exists col_cui col_def,
    lower_colmap (columns ex_mgdef_frame) !! "cui" = Some col_cui
    /\ lower_colmap (columns ex_mgdef_frame) !! "def" = Some col_def
    /\ forall k, is_Some (ex_cui_def_map !! k) <->
         k <> "" /\ exists row, row ∈ rows ex_mgdef_frame
           /\ trimmed_at ex_mgdef_frame col_cui row = k
           /\ trimmed_at ex_mgdef_frame col_def row <> "".
Proof.
  apply (mgdef_keys ex_mgdef_frame ex_cui_def_map).
  - apply ex_mgdef_frame_wf.
  - apply ex_mgdef_frame_map.
Defined.

(** ** The whole run *)

Lemma read_mgdef_map_table fs read_csv mgdef_path m :
  (forall text sep names raw,
      read_csv text sep names = CsvOk raw -> frame_wf raw) ->
  read_mgdef_map fs read_csv mgdef_path = Ok m -> definition_table m.
Proof.
  intros Hwf. unfold read_mgdef_map.
  destruct (fs !! mgdef_path) as [lines|]; [|done].
  destruct (lines !! header_index lines) as [l|]; [|done].
  destruct (read_csv _ _ None) as [raw|msg] eqn:E;
    unfold mbind, result_bind; simpl; [|done].
  apply mgdef_definition_table. by eapply Hwf.
Qed.

Lemma get_trimmed df row name :
  Forall (fun x => Py.strip x = x) row ->
  Py.strip (get df row name) = get df row name.
Proof.
  intros Hrow. destruct (get_elem_or_empty df row name) as [Hin | ->]; [|done].
  rewrite Forall_forall in Hrow. by apply Hrow.
Qed.

(** X13.  When [main] gets as far as the join (both files read, with a
    [read_csv] that returns well-formed frames), the records it is about
    to write have pairwise distinct medgen_concept_id values, and in each
    record _id equals omim_id, the identifiers and medgen_disease_info are
    non-empty, and every field is trimmed. *)
Theorem main_results_records (fs : gmap string (list string))
    (read_csv : string -> string -> option (list string) -> csv_result)
    (mgdef_path mapping_path : string) (out : list entry) :
  (forall text sep names raw,
      read_csv text sep names = CsvOk raw -> frame_wf raw) ->
  main_results fs read_csv mgdef_path mapping_path = Ok out ->
  NoDup (medgen_concept_id <$> out)
  /\ forall e, e ∈ out ->
       _id e = omim_id e
       /\ _id e <> "" /\ medgen_concept_id e <> ""
       /\ medgen_disease_info e <> ""
       /\ Py.strip (_id e) = _id e
       /\ Py.strip (omim_disease e) = omim_disease e
       /\ Py.strip (medgen_concept_id e) = medgen_concept_id e
       /\ Py.strip (medgen_disease_info e) = medgen_disease_info e.
Proof.
  intros Hwf. unfold main_results.
  destruct (read_mgdef_map fs read_csv mgdef_path) as [m|] eqn:Em;
    unfold mbind at 1, result_bind at 1; [|done].
  destruct (read_medgen_mapping fs read_csv mapping_path) as [df|] eqn:Ed;
    unfold mbind, result_bind; [|done].
  intros [= <-].
  pose proof (read_mgdef_map_table _ _ _ _ Hwf Em) as Htable.
  pose proof (read_medgen_mapping_rows_trimmed _ _ _ _ Ed) as Htrim.
  split.
  - unfold build_list_of_dicts, run_loop.
    apply (foldl_distinct df m (rows df) (∅, [])).
    split; simpl; [apply NoDup_nil_2 | intros e He; by apply elem_of_nil in He].
  - intros e He.
    apply build_elem in He as (i & (row & Hrow & (_ & Hm & Hc) & _) & ->).
    rewrite (entry_of_row_lookup df m i row Hrow).
    assert (Forall (fun x => Py.strip x = x) row) as Hr.
    { rewrite Forall_forall in Htrim. apply Htrim.
      apply list_elem_of_lookup. eauto. }
    assert (medgen_disease_info (make_entry df m row) <> ""
            /\ Py.strip (medgen_disease_info (make_entry df m row))
               = medgen_disease_info (make_entry df m row)) as [Hi1 Hi2].
    { rewrite info_make_entry.
      destruct (lookup_info_NA_or_value m (get df row "OMIM_CUI")
                  (get df row "HPO_CUI")) as [-> | [k Hk]]; [done|].
      by apply Htable in Hk as (_ & ? & _ & ?). }
    split_and!; try done; by apply get_trimmed.
Qed.

Lemma main_results_records_witness :
  let out := [Entry "100050" "100050" "Example Disease" "C001" "Some disease"] in
  NoDup (medgen_concept_id <$> out)
  /\ forall e, e ∈ out ->
       _id e = omim_id e
       /\ _id e <> "" /\ medgen_concept_id e <> ""
       /\ medgen_disease_info e <> ""
       /\ Py.strip (_id e) = _id e
       /\ Py.strip (omim_disease e) = omim_disease e
       /\ Py.strip (medgen_concept_id e) = medgen_concept_id e
       /\ Py.strip (medgen_disease_info e) = medgen_disease_info e.
Proof.
  apply (main_results_records
           (<["MGDEF.csv.gz" := ["CUI,DEF"; "C001, Some disease "]]>
              (<["MedGen_HPO_OMIM_Mapping.txt.gz" :=
                   ["#MIM_number,OMIM_name,OMIM_CUI,HPO_CUI";
                    "100050, Example Disease ,C001,H001"]]> ∅))
           checked_read_csv "MGDEF.csv.gz" "MedGen_HPO_OMIM_Mapping.txt.gz").
  - apply checked_read_csv_wf.
  - by vm_compute.
Defined.

(** ** Splitting the header *)

Section SplitFacts.

Variable c : ascii.

Lemma prefix_char_false d s :
  d <> c -> String.prefix (String c "") (String d s) = false.
Proof. intros Hd. simpl. destruct (ascii_dec c d); [congruence | done]. Qed.

Lemma prefix_char_true s : String.prefix (String c "") (String c s) = true.
Proof. simpl. destruct (ascii_dec c c); [by destruct s | done]. Qed.

Lemma split_go_nonempty s : Py.split_go (String c "") 0 s <> [].
Proof.
  destruct s as [|d s]; simpl; [done|].
  destruct (ascii_dec c d) as [-> | Hne].
  - by destruct s.
  - by destruct (Py.split_go (String c "") 0 s).
Qed.

Lemma join_cons_char d f fs sep :
  Py.join sep (String d f :: fs) = String d (Py.join sep (f :: fs)).
Proof. by destruct fs. Qed.

(** Splitting on a one-character separator and joining with it gives the
    text back, and there is one field more than there are separators. *)
Lemma split_char_join s :
  Py.join (String c "") (Py.split s (String c "")) = s
  /\ List.length (Py.split s (String c ""))
     = S (count_occ ascii_dec (list_ascii_of_string s) c).
Proof.
  unfold Py.split. induction s as [|d s [IHj IHl]]; [done|].
  destruct (decide (d = c)) as [-> | Hne].
  - change (Py.split_go (String c "") 0 (String c s))
      with (if String.prefix (String c "") (String c s)
            then "" :: Py.split_go (String c "") 0 s
            else match Py.split_go (String c "") 0 s with
                 | f :: fs => String c f :: fs
                 | [] => [String c ""]
                 end).
    rewrite prefix_char_true. split.
    + pose proof (split_go_nonempty s) as Hn.
      destruct (Py.split_go (String c "") 0 s) as [|f fs] eqn:E; [done|].
      change (Py.join (String c "") ("" :: f :: fs))
        with (String c (Py.join (String c "") (f :: fs))).
      by rewrite IHj.
    + simpl. rewrite IHl. by destruct (ascii_dec c c).
  - change (Py.split_go (String c "") 0 (String d s))
      with (if String.prefix (String c "") (String d s)
            then "" :: Py.split_go (String c "") 0 s
            else match Py.split_go (String c "") 0 s with
                 | f :: fs => String d f :: fs
                 | [] => [String d ""]
                 end).
    rewrite prefix_char_false by done.
    pose proof (split_go_nonempty s) as Hn.
    destruct (Py.split_go (String c "") 0 s) as [|f fs] eqn:E; [done|].
    split.
    + by rewrite join_cons_char, IHj.
    + simpl in *. rewrite IHl. destruct (ascii_dec d c); [done|].
      by destruct (ascii_dec c d).
Qed.

End SplitFacts.

Lemma detect_delim_char h :
  exists c, detect_delim_from_header h = String c "".
Proof.
  unfold detect_delim_from_header, TAB.
  repeat (destruct (Py.contains _ h)); eauto.
Qed.

(** X14.  The fields of the cleaned mapping header, joined again by the
    delimiter inferred from it, give the cleaned header back; the table has
    one column more than the cleaned header has delimiters, so at least
    one. *)
Theorem header_fields_round_trip (header_line : string) :
  let clean := header_clean_of header_line in
  let delim := detect_delim_from_header clean in
  Py.join delim (Py.split clean delim) = clean
  /\ exists c, delim = String c ""
       /\ List.length (header_cols_of header_line)
          = S (count_occ ascii_dec (list_ascii_of_string clean) c).
Proof.
  intros clean delim. subst delim.
  destruct (detect_delim_char clean) as [c Hc]. rewrite Hc.
  destruct (split_char_join c clean) as [Hj Hl]. split; [done|].
  exists c. split; [done|].
  unfold header_cols_of. fold clean. by rewrite Hc, length_map.
Qed.

(** ** Case-insensitive lookup of a column *)

Lemma lower_colmap_app_last pre c post k :
  Py.lower c = k ->
  (forall c', c' ∈ post -> Py.lower c' <> k) ->
  lower_colmap (pre ++ c :: post) !! k = Some c.
Proof.
  intros Hc Hpost. induction post as [|d post IH] using rev_ind.
  - rewrite lower_colmap_snoc, <- Hc. apply lookup_insert_eq.
  - replace (pre ++ c :: post ++ [d])%list
      with ((pre ++ c :: post) ++ [d])%list by by rewrite <- app_assoc.
    rewrite lower_colmap_snoc, lookup_insert_ne.
    + apply IH. intros c' Hc'. apply Hpost. apply elem_of_app. by left.
    + apply Hpost. apply elem_of_app. right. by left.
Qed.

Lemma col_index_app_fresh pre c post :
  c ∉ pre -> col_index c (pre ++ c :: post) = Some (List.length pre).
Proof.
  induction pre as [|d pre IH]; intros Hc; simpl.
  - by rewrite String.eqb_refl.
  - apply not_elem_of_cons in Hc as [Hne Hc].
    destruct (String.eqb_spec d c) as [-> | _]; [done|].
    by rewrite IH.
Qed.

(** X15.  The join reads a field from the last column whose name matches,
    whatever the letter case: when that column is at position [n], the
    field is the cell at position [n] of the row. *)
Theorem get_reads_last_match (df : frame string) (row : list string)
    (name c : string) (pre post : list string) :
  columns df = (pre ++ c :: post)%list ->
  c ∉ pre ->
  ci_match c name ->
  (forall c', c' ∈ post -> ~ ci_match c' name) ->
  get df row name = nth (List.length pre) row "".
Proof.
  intros Hcols Hfresh Hc Hpost. unfold get, colmap. rewrite Hcols.
  rewrite (lower_colmap_app_last pre c post (Py.lower name) Hc Hpost).
  unfold row_at. by rewrite col_index_app_fresh.
Qed.

Lemma get_reads_last_match_witness :
  get (Frame ["mim_number"; "omim_cui"; "MIM_NUMBER"] [["1"; "C1"; "2"]])
    ["1"; "C1"; "2"] "MIM_number" = "2".
Proof.
  apply (get_reads_last_match
           (Frame ["mim_number"; "omim_cui"; "MIM_NUMBER"] [["1"; "C1"; "2"]])
           ["1"; "C1"; "2"] "MIM_number" "MIM_NUMBER"
           ["mim_number"; "omim_cui"] []).
  - reflexivity.
  - intros H. apply elem_of_cons in H as [H | H]; [discriminate|].
    apply list_elem_of_singleton in H. discriminate.
  - reflexivity.
  - intros c' H. by apply elem_of_nil in H.
Defined.

(** ** The blank-row test on a trimmed table *)

(** X16.  On a row whose cells are trimmed, as the mapping reader leaves
    them, the blank-row test never skips a row that has a MIM number: the
    row is kept or skipped by the tests on MIM number and OMIM CUI
    alone. *)
Theorem blank_test_redundant_when_trimmed (df : frame string)
    (row : list string) :
  Forall (fun x => Py.strip x = x) row ->
  get df row "MIM_number" <> "" ->
  all_blank row = false
  /\ (qualifies df row <->
      get df row "MIM_number" <> "" /\ get df row "OMIM_CUI" <> "").
Proof.
  intros Htrim Hm.
  assert (~ Forall (fun x => Py.strip x = "") row) as Hnb.
  { intros Hb. destruct (get_elem_or_empty df row "MIM_number") as [Hin | E];
      [|done].
    rewrite Forall_forall in Htrim, Hb.
    apply Hm. rewrite <- (Htrim _ Hin). by apply Hb. }
  split.
  - destruct (all_blank row) eqn:E; [|done]. by apply all_blank_spec in E.
  - unfold qualifies. tauto.
Qed.

Lemma blank_test_redundant_when_trimmed_witness :
  all_blank ["100050"; "Example Disease"; "C001"; "H001"] = false.
Proof.
  apply (blank_test_redundant_when_trimmed ex_mapping_df
           ["100050"; "Example Disease"; "C001"; "H001"]).
  - by repeat constructor.
  - by vm_compute.
Defined.
